(** * veneur: the OpenTracing adapter of package [trace] and the [main] of the
    command, embedded in Rocq.

    The development follows the two source files:

    - [trace/opentracing.go]: span contexts carried as baggage maps, the
      [Span] methods, and [Tracer.Inject] / [Tracer.Extract] with their
      deferred [recover];
    - the command's [main]: flag handling, configuration, server start-up
      and the Sentry path taken when the server cannot be built.

    Go values are modelled as the code has them: [int64] as [Z] with its
    range written out, strings as [string] (sequences of bytes), maps as
    [gmap], pointers as locations of an explicit store where aliasing
    matters, panics as a result of their own that [recover] turns back into
    a return value. *)

From Stdlib Require Import ZArith String Ascii List Permutation.
From Stdlib Require Import DecimalString DecimalZ DecimalPos.
From stdpp Require Import gmap strings list.

Open Scope Z_scope.

(** A call either yields a value or fails with an error, as Go's
    [(value, error)] pairs whose value is ignored when the error is set. *)
Inductive result (E A : Type) : Type :=
| Ok (a : A)
| Err (e : E).
Arguments Ok {E A} a.
Arguments Err {E A} e.

(** ** Package [strconv] (base 10, 64 bits, the only instance the code uses) *)
Module strconv.

Definition minInt64 : Z := - 2 ^ 63.
Definition maxInt64 : Z := 2 ^ 63 - 1.
Definition maxUint64 : Z := 2 ^ 64 - 1.

Definition is_int64 (z : Z) : Prop := minInt64 <= z <= maxInt64.

(** [strconv.FormatInt(i, 10)]: an optional minus sign and the decimal
    digits, without leading zeros. *)
Definition FormatInt (i : Z) : string :=
  NilEmpty.string_of_int (Z.to_int i).

(** The two causes a [*strconv.NumError] can carry. *)
Inductive NumError : Type := ErrSyntax | ErrRange.

Definition digit_of (c : ascii) : option Z :=
  let n := Z.of_N (N_of_ascii c) in
  if (48 <=? n) && (n <=? 57) then Some (n - 48) else None.

(** The loop of [ParseUint]: a byte that is no digit is a syntax error,
    leaving the 64-bit range is a range error; whichever comes first. *)
Fixpoint ParseUint_loop (s : string) (n : Z) : result NumError Z :=
  match s with
  | EmptyString => Ok n
  | String c s' =>
      match digit_of c with
      | None => Err ErrSyntax
      | Some d =>
          if maxUint64 <? n * 10 + d then Err ErrRange
          else ParseUint_loop s' (n * 10 + d)
      end
  end.

Definition ParseUint (s : string) : result NumError Z :=
  match s with
  | EmptyString => Err ErrSyntax
  | _ => ParseUint_loop s 0
  end.

(** [strconv.ParseInt(s, 10, 64)]. *)
Definition ParseInt (s : string) : result NumError Z :=
  match s with
  | EmptyString => Err ErrSyntax
  | String c rest =>
      let neg := Ascii.eqb c "-" in
      let body := if Ascii.eqb c "+" || Ascii.eqb c "-" then rest else s in
      match ParseUint body with
      | Err e => Err e
      | Ok un =>
          let cutoff := 2 ^ 63 in
          if negb neg && (cutoff <=? un) then Err ErrRange
          else if neg && (cutoff <? un) then Err ErrRange
          else Ok (if neg then - un else un)
      end
  end.

End strconv.

(** ** Package [strings] *)
Module strs.

Definition lower_ascii (c : ascii) : ascii :=
  let n := N_of_ascii c in
  if ((65 <=? n) && (n <=? 90))%N then ascii_of_N (n + 32) else c.

(** [strings.ToLower] on ASCII text: the letters A to Z are mapped to a to
    z, every other byte is kept. *)
Fixpoint ToLower (s : string) : string :=
  match s with
  | EmptyString => EmptyString
  | String c s' => String (lower_ascii c) (ToLower s')
  end.

End strs.

(** ** Panics, errors and [recover] *)

(** The values a panic of this code can carry: the run-time errors of a
    failed type assertion, of a write to a nil map and of a nil pointer
    dereference, and whatever a callee outside this package raises. *)
Inductive panic_value : Type :=
| TypeAssertionFailed
| NilMapAssignment
| NilDereference
| ForeignPanic (msg : string).

(** A computation that returns or panics. *)
Inductive exec (A : Type) : Type :=
| Return (a : A)
| Panic (r : panic_value).
Arguments Return {A} a.
Arguments Panic {A} r.

#[global] Instance exec_ret : MRet exec := fun A a => Return a.
#[global] Instance exec_bind : MBind exec := fun A B f m =>
  match m with
  | Return a => f a
  | Panic r => Panic r
  end.

(** The [error] values that travel through the package. *)
Inductive error : Type :=
| ErrUnsupportedSpanContext
| ErrUnsupportedFormat
| ErrContractViolation (details : panic_value)
| ErrParsingFields
| ErrDummy
| ErrForeign (msg : string).

(** ** Package [ssf] *)
Module ssf.

(** Modelled from the spec: the generated protocol-buffer types of package
    [ssf] are not among the sources; the trace part of a sample has the
    fields trace_id, span_id (Go name [Id]), parent_id and resource, all
    [int64] but the last. *)
Record SSFTrace : Type := {
  TraceId : Z;
  Id : Z;
  ParentId : Z;
  Resource : string;
}.

(** Modelled from the spec: a sample refers to its trace part through
    the field [Trace]; [None] is the sample that has none. *)
Record SSFSample : Type := {
  Trace : option SSFTrace;
}.

End ssf.

(** ** Package [trace], file [opentracing.go] *)
Module trace.

Definition loc : Type := positive.

(** Modelled from the spec: struct [Trace] is declared in a file that is
    not among the sources; these are the fields [opentracing.go] reads
    and writes. *)
Record Trace : Type := {
  TraceId : Z;
  SpanId : Z;
  ParentId : Z;
  Resource : string;
}.

(** [baggageItems] is a Go map: [None] is the nil map of the zero value,
    which reads as the empty map and cannot be written. *)
Record spanContext : Type := {
  baggageItems : option (gmap string string);
}.

Definition items (c : spanContext) : gmap string string :=
  default ∅ (baggageItems c).

(** The objects reached through pointers: span contexts and traces. *)
Record store : Type := {
  contexts : gmap loc spanContext;
  traces : gmap loc Trace;
}.

(** Code that runs on the store and returns or panics. *)
Definition M (A : Type) : Type := store -> exec A * store.

#[global] Instance M_ret : MRet M := fun A a σ => (Return a, σ).
#[global] Instance M_bind : MBind M := fun A B f m σ =>
  match m σ with
  | (Return a, σ') => f a σ'
  | (Panic r, σ') => (Panic r, σ')
  end.

Definition lift {A} (e : exec A) : M A := fun σ => (e, σ).

(** [defer func() { if r := recover(); r != nil { ... } }()]: a panic of
    the body is stopped and the named results take the given values. *)
Definition deferred_recover {A} (on_panic : panic_value -> A) (body : M A)
  : M A := fun σ =>
  match body σ with
  | (Return a, σ') => (Return a, σ')
  | (Panic r, σ') => (Return (on_panic r), σ')
  end.

(** [for k, v := range m] visits the entries of a map in an order the
    language leaves open: an [order] picks the sequence for one loop, and
    the i-th loop a call executes uses the i-th order of its schedule. *)
Definition order : Type := gmap string string -> list (string * string).
Definition schedule : Type := nat -> order.

Definition range_order (ord : order) : Prop :=
  forall m, ord m ≡ₚ map_to_list m.
Definition range_schedule (sched : schedule) : Prop :=
  forall i, range_order (sched i).

Module textMapReaderWriter.

(** The loop of [ForeachKey] over the sequence of entries visited; the
    handler is a closure, its captured variables are the state [S]. *)
Fixpoint foreach {S : Type} (entries : list (string * string))
    (handler : string -> string -> S -> exec (S * option error))
    (s : S) : exec (S * option error) :=
  match entries with
  | [] => Return (s, None)
  | (k, v) :: rest =>
      r ← handler k v s;
      match r with
      | (s', Some err) => Return (s', Some err)
      | (s', None) => foreach rest handler s'
      end
  end.

Definition ForeachKey {S : Type} (ord : order) (t : gmap string string)
    (handler : string -> string -> S -> exec (S * option error))
    (s : S) : exec (S * option error) :=
  foreach (ord t) handler s.

(** [t[k] = v]; [None] is the nil map, which cannot be written. *)
Definition Set_ (t : option (gmap string string)) (k v : string)
  : exec (option (gmap string string)) :=
  match t with
  | None => Panic NilMapAssignment
  | Some m => Return (Some (<[k := v]> m))
  end.

(** [CloneTo]: the state of the loop is the writer [w]. *)
Definition CloneTo (ord : order) (t : gmap string string)
    (w : option (gmap string string))
  : exec (option (gmap string string)) :=
  r ← ForeachKey ord t
        (fun k v w => w' ← Set_ w k v; mret (w', None)) w;
  mret (fst r).

(** [Clone]: [CloneTo] into a new, empty map. *)
Definition Clone (ord : order) (t : gmap string string)
  : exec (option (gmap string string)) :=
  CloneTo ord t (Some ∅).

End textMapReaderWriter.

(** A pointer [*spanContext]: [None] is nil; a location that holds no
    object is treated alike. *)
Definition deref (c : option loc) : M spanContext := fun σ =>
  match c with
  | None => (Panic NilDereference, σ)
  | Some l =>
      match contexts σ !! l with
      | Some ctx => (Return ctx, σ)
      | None => (Panic NilDereference, σ)
      end
  end.

(** [&spanContext{}]: a fresh object holding the zero value. *)
Definition new_spanContext : M loc := fun σ =>
  let l := fresh (dom (contexts σ)) in
  (Return l,
   {| contexts := <[l := {| baggageItems := None |}]> (contexts σ);
      traces := traces σ |}).

Definition write (l : loc) (ctx : spanContext) : M unit := fun σ =>
  (Return tt,
   {| contexts := <[l := ctx]> (contexts σ); traces := traces σ |}).

(** [c.baggageItems[k] = v] *)
Definition set_baggage (c : loc) (k v : string) : M unit :=
  ctx ← deref (Some c);
  match baggageItems ctx with
  | None => lift (Panic NilMapAssignment)
  | Some m => write c {| baggageItems := Some (<[k := v]> m) |}
  end.

Module spanContext.

Definition Init (c : loc) : M unit :=
  _ ← deref (Some c);
  write c {| baggageItems := Some ∅ |}.

Definition ForeachBaggageItem {S : Type} (ord : order) (c : option loc)
    (handler : string -> string -> S -> S * bool) (s : S) : M S :=
  ctx ← deref c;
  let errHandler k v s :=
    let '(s', b) := handler k v s in
    Return (s', if b then None else Some ErrDummy) in
  r ← lift (textMapReaderWriter.ForeachKey ord (items ctx) errHandler s);
  mret (fst r).

Definition parseBaggageInt64 (ord : order) (c : option loc) (key : string)
  : M Z :=
  ForeachBaggageItem ord c
    (fun k v val =>
       if String.eqb (strs.ToLower k) (strs.ToLower key) then
         match strconv.ParseInt v with
         | Err _ => (val, true)
         | Ok i => (i, false)
         end
       else (val, true))
    0.

Definition TraceId (ord : order) (c : option loc) : M Z :=
  parseBaggageInt64 ord c "traceid".

Definition ParentId (ord : order) (c : option loc) : M Z :=
  parseBaggageInt64 ord c "parentid".

Definition SpanId (ord : order) (c : option loc) : M Z :=
  parseBaggageInt64 ord c "spanid".

Definition Resource (ord : order) (c : option loc) : M string :=
  ForeachBaggageItem ord c
    (fun k v resource =>
       if String.eqb (strs.ToLower k) "resource" then (v, false)
       else (resource, true))
    EmptyString.

End spanContext.

(** Modelled from the spec: method [context] of [Trace] is declared in a
    file that is not among the sources. [Extract] documents its result as
    the context of the span itself, whose [SpanId] is the span's own; it is
    [Span.contextAsParent] below with the key spanid added. *)
Definition Trace_context (t : Trace) : M loc :=
  c ← new_spanContext;
  spanContext.Init c;;
  set_baggage c "traceid" (strconv.FormatInt (TraceId t));;
  set_baggage c "parentid" (strconv.FormatInt (ParentId t));;
  set_baggage c "spanid" (strconv.FormatInt (SpanId t));;
  set_baggage c "resource" (Resource t);;
  mret c.

Inductive Tracer : Type := mkTracer.

(** [Span] embeds a pointer to its [Trace]; [logLines] are kept but never
    read. *)
Record Span : Type := {
  tracer : Tracer;
  Trace_ptr : option loc;
  logLines : list string;
}.

Definition load_trace (s : Span) : M Trace := fun σ =>
  match Trace_ptr s with
  | None => (Panic NilDereference, σ)
  | Some l =>
      match traces σ !! l with
      | Some t => (Return t, σ)
      | None => (Panic NilDereference, σ)
      end
  end.

Definition store_trace (s : Span) (t : Trace) : M unit := fun σ =>
  match Trace_ptr s with
  | None => (Panic NilDereference, σ)
  | Some l =>
      (Return tt, {| contexts := contexts σ; traces := <[l := t]> (traces σ) |})
  end.

(** What an [opentracing.SpanContext] interface value can hold: nil, a
    pointer of this package (possibly a nil pointer), or another
    implementation. *)
Inductive SpanContextRef : Type :=
| NilContext
| OwnContext (c : option loc)
| ForeignContext.

Module Span.

Definition contextAsParent (s : Span) : M loc :=
  c ← new_spanContext;
  spanContext.Init c;;
  t ← load_trace s;
  set_baggage c "traceid" (strconv.FormatInt (TraceId t));;
  t ← load_trace s;
  set_baggage c "parentid" (strconv.FormatInt (ParentId t));;
  t ← load_trace s;
  set_baggage c "resource" (Resource t);;
  mret c.

Definition Context (s : Span) : M SpanContextRef :=
  c ← contextAsParent s;
  mret (OwnContext (Some c)).

Definition SetOperationName (s : Span) (name : string) : M Span :=
  t ← load_trace s;
  store_trace s {| TraceId := TraceId t; SpanId := SpanId t;
                   ParentId := ParentId t; Resource := name |};;
  mret s.

Definition SetBaggageItem (s : Span) (restrictedKey value : string)
  : M Span :=
  c ← contextAsParent s;
  set_baggage c restrictedKey value;;
  mret s.

Definition BaggageItem (s : Span) (restrictedKey : string) : M string :=
  c ← contextAsParent s;
  ctx ← deref (Some c);
  mret (default EmptyString (items ctx !! restrictedKey)).

End Span.

(** The [format] argument, an [interface{}] compared with
    [opentracing.Binary]. *)
Inductive Format : Type := Binary | TextMap | HTTPHeaders | OtherFormat.

Definition is_Binary (format : Format) : bool :=
  match format with Binary => true | _ => false end.

(** An [io.Writer] is known by the bytes written to it so far. *)
Definition Writer : Type := list Byte.byte.

(** An [io.Reader] is known by what [ioutil.ReadAll] gets from it. *)
Definition Reader : Type := result error (list Byte.byte).

(** The [carrier] argument, an [interface{}]: a text map (a Go map, so
    possibly nil), which is both an [opentracing.TextMapReader] and an
    [opentracing.TextMapWriter]; a stream that is an [io.Reader], an
    [io.Writer] or both; or a value with none of these interfaces. *)
Inductive Carrier : Type :=
| OpaqueCarrier
| TextMapCarrier (m : option (gmap string string))
| StreamCarrier (rd : option Reader) (wr : option Writer).

(** [carrier.(io.Writer)] and [carrier.(io.Reader)]: panic when the
    dynamic type lacks the interface. *)
Definition assert_Writer (carrier : Carrier) : exec Writer :=
  match carrier with
  | StreamCarrier _ (Some w) => Return w
  | _ => Panic TypeAssertionFailed
  end.

Definition assert_Reader (carrier : Carrier) : exec Reader :=
  match carrier with
  | StreamCarrier (Some r) _ => Return r
  | _ => Panic TypeAssertionFailed
  end.

(** [w, ok := carrier.(opentracing.TextMapWriter)], and the same for
    [TextMapReader]. *)
Definition as_TextMap (carrier : Carrier) : option (option (gmap string string)) :=
  match carrier with
  | TextMapCarrier m => Some m
  | _ => None
  end.

(** The callees that are not part of the file: [ProtoMarshalTo] of
    [Trace], which writes the marshalled trace to a writer, and
    [proto.Unmarshal] into an [ssf.SSFSample]. *)
Record Externals : Type := {
  ProtoMarshalTo : Trace -> Writer -> exec (Writer * option error);
  Unmarshal : list Byte.byte -> exec (result error ssf.SSFSample);
}.

Definition textMapReaderGet (ord : order) (tmr : option (gmap string string))
    (key : string) : exec string :=
  r ← textMapReaderWriter.ForeachKey ord (default ∅ tmr)
        (fun k v value =>
           if String.eqb (strs.ToLower key) (strs.ToLower k)
           then Return (v, Some ErrDummy)
           else Return (value, None))
        EmptyString;
  mret (fst r).

Definition set_writer (carrier : Carrier) (w : Writer) : Carrier :=
  match carrier with
  | StreamCarrier rd _ => StreamCarrier rd (Some w)
  | _ => carrier
  end.

Module Tracer.

Definition Inject_body (ext : Externals) (sched : schedule)
    (sm : SpanContextRef) (format : Format) (carrier : Carrier)
  : M (Carrier * option error) :=
  match sm with
  | OwnContext sc =>
      if is_Binary format then
        w ← lift (assert_Writer carrier);
        traceId ← spanContext.TraceId (sched 0%nat) sc;
        parentId ← spanContext.ParentId (sched 1%nat) sc;
        spanId ← spanContext.SpanId (sched 2%nat) sc;
        resource ← spanContext.Resource (sched 3%nat) sc;
        let trace := {| TraceId := traceId; ParentId := parentId;
                        SpanId := spanId; Resource := resource |} in
        r ← lift (ProtoMarshalTo ext trace w);
        mret (set_writer carrier (fst r), snd r)
      else
        match as_TextMap carrier with
        | Some w =>
            ctx ← deref sc;
            w' ← lift (textMapReaderWriter.CloneTo (sched 0%nat)
                         (items ctx) w);
            mret (TextMapCarrier w', None)
        | None => mret (carrier, Some ErrUnsupportedFormat)
        end
  | _ => mret (carrier, Some ErrUnsupportedSpanContext)
  end.

(** [Inject]: the body under the deferred [recover]. A panic leaves the
    carrier as it was passed in. *)
Definition Inject (ext : Externals) (sched : schedule)
    (sm : SpanContextRef) (format : Format) (carrier : Carrier)
  : M (Carrier * option error) :=
  deferred_recover (fun r => (carrier, Some (ErrContractViolation r)))
    (Inject_body ext sched sm format carrier).

Definition Extract_body (ext : Externals) (sched : schedule)
    (format : Format) (carrier : Carrier)
  : M (SpanContextRef * option error) :=
  if is_Binary format then
    r ← lift (assert_Reader carrier);
    match r with
    | Err err => mret (NilContext, Some err)
    | Ok packet =>
        u ← lift (Unmarshal ext packet);
        match u with
        | Err err => mret (NilContext, Some err)
        | Ok sample =>
            tr ← lift (match ssf.Trace sample with
                       | Some tr => Return tr
                       | None => Panic NilDereference
                       end);
            let trace := {| TraceId := ssf.TraceId tr;
                            ParentId := ssf.ParentId tr;
                            SpanId := ssf.Id tr;
                            Resource := ssf.Resource tr |} in
            c ← Trace_context trace;
            mret (OwnContext (Some c), None)
        end
    end
  else
    match as_TextMap carrier with
    | Some tm =>
        v1 ← lift (textMapReaderGet (sched 0%nat) tm "traceid");
        v2 ← lift (textMapReaderGet (sched 1%nat) tm "spanid");
        v3 ← lift (textMapReaderGet (sched 2%nat) tm "parentid");
        match strconv.ParseInt v1, strconv.ParseInt v2,
              strconv.ParseInt v3 with
        | Ok traceId, Ok spanId, Ok parentId =>
            resource ← lift (textMapReaderGet (sched 3%nat) tm "resource");
            let trace := {| TraceId := traceId; SpanId := spanId;
                            ParentId := parentId; Resource := resource |} in
            c ← Trace_context trace;
            mret (OwnContext (Some c), None)
        | _, _, _ => mret (NilContext, Some ErrParsingFields)
        end
    | None => mret (NilContext, Some ErrUnsupportedFormat)
    end.

(** [Extract]: the body under the deferred [recover]; at a panic the
    named results are still nil, and [err] is then set. *)
Definition Extract (ext : Externals) (sched : schedule)
    (format : Format) (carrier : Carrier)
  : M (SpanContextRef * option error) :=
  deferred_recover (fun r => (NilContext, Some (ErrContractViolation r)))
    (Extract_body ext sched format carrier).

End Tracer.

(** The object behind the context a call returned, in the store the call
    left. *)
Definition pointee (r : exec SpanContextRef * store) : option spanContext :=
  match r with
  | (Return (OwnContext (Some l)), σ) => contexts σ !! l
  | _ => None
  end.

(** [key] names the entry [(k0, v0)] of [m], and no other, up to case. *)
Definition names (m : gmap string string) (key k0 v0 : string) : Prop :=
  m !! k0 = Some v0 /\
  strs.ToLower k0 = strs.ToLower key /\
  forall k v, m !! k = Some v -> strs.ToLower k = strs.ToLower key -> k = k0.

Definition unnamed (m : gmap string string) (key : string) : Prop :=
  forall k v, m !! k = Some v -> strs.ToLower k <> strs.ToLower key.

(** The baggage [context] of [Trace] builds. *)
Definition own_baggage (t : Trace) : gmap string string :=
  <["resource" := Resource t]>
    (<["spanid" := strconv.FormatInt (SpanId t)]>
       (<["parentid" := strconv.FormatInt (ParentId t)]>
          (<["traceid" := strconv.FormatInt (TraceId t)]> ∅))).

(** The baggage [contextAsParent] of [Span] builds. *)
Definition parent_baggage (t : Trace) : gmap string string :=
  <["resource" := Resource t]>
    (<["parentid" := strconv.FormatInt (ParentId t)]>
       (<["traceid" := strconv.FormatInt (TraceId t)]> ∅)).

Definition with_context (σ : store) (l : loc) (m : gmap string string)
  : store :=
  {| contexts := <[l := {| baggageItems := Some m |}]> (contexts σ);
     traces := traces σ |}.

(** An order that visits the entry of [k] first, when there is one. *)
Definition visit_first (k : string) : order := fun m =>
  match m !! k with
  | Some v => (k, v) :: map_to_list (delete k m)
  | None => map_to_list m
  end.

(** Code that leaves the store as it found it, whether it returns or
    panics. *)
Definition reads {A} (m : M A) : Prop := forall σ, snd (m σ) = σ.

(** The trace [Inject] marshals for the context of a span: the span id is
    not part of that context. *)
Definition parent_view (t : Trace) : Trace :=
  {| TraceId := TraceId t; ParentId := ParentId t; SpanId := 0;
     Resource := Resource t |}.

End trace.

(** ** The command: [main] *)
Module cmd.

(** A flag definition: name, default value, usage text. *)
Record Flag : Type := {
  flag_name : string;
  flag_default : string;
  flag_usage : string;
}.

(** The [var] block: the flags the program declares. *)
Definition flags : list Flag :=
  [ {| flag_name := "f"; flag_default := "";
       flag_usage := "The config file to read for settings." |} ].

(** The fields of [veneur.Config] that [main] reads. *)
Record Config : Type := {
  SentryDsn : string;
  HTTPAddress : string;
}.

(** A [*raven.Client], known by the DSN it was built from. *)
Inductive Client : Type := mkClient (dsn : string).

Record Packet : Type := {
  Message : string;
  ServerName : string;
}.

(** How a call made under the deferred function ends. *)
Inductive call_result : Type :=
| Returned
| Panicked (r : string)
| Blocked.

(** The calls [main] makes to the outside, in program order. *)
Inductive event : Type :=
| LogFatal (msg : string)
| LogError (msg : string)
| CallReadConfig (path : string)
| CallNewFromConfig (conf : Config)
| CallRavenNew (dsn : string)
| CallHostname
| CallCapture (client : option Client) (p : Packet)
| WaitCapture
| CallStart
| CallHTTPServe
| CallConsumePanic (recovered : option string).

(** How the process ends, if it does. *)
Inductive outcome : Type :=
| Exit (code : Z)
| BlocksForever
| Crash (r : string).

(** What the outside answers. [flag_f] is the value the command line
    gives to [-f], if it gives one; an [error] is known by its message. *)
Record World : Type := {
  flag_f : option string;
  ReadConfig : string -> Config * option string;
  NewFromConfig : Config -> option string;
  raven_New : string -> option Client * option string;
  Hostname : string;
  Start : call_result;
  HTTPServe : call_result;
  ConsumePanic : option string -> call_result;
}.

(** A run of part of the program: the calls made, and either a value to
    go on with or the end of the process. *)
Inductive step (A : Type) : Type :=
| Next (a : A)
| Stop (o : outcome).
Arguments Next {A} a.
Arguments Stop {A} o.

Definition P (A : Type) : Type := list event * step A.

#[global] Instance P_ret : MRet P := fun A a => ([], Next a).
#[global] Instance P_bind : MBind P := fun A B f m =>
  match m with
  | (es, Next a) => let '(es', r) := f a in (es ++ es', r)
  | (es, Stop o) => (es, Stop o)
  end.

Definition emit (e : event) : P unit := ([e], Next tt).
Definition stop {A} (o : outcome) : P A := ([], Stop o).

(** [logrus.Fatal]: the entry is logged, then the process exits with
    code 1. *)
Definition Fatal {A} (msg : string) : P A :=
  emit (LogFatal msg);; stop (Exit 1).

(** [flag.String] hands out a pointer to the default value, and
    [flag.Parse] stores the value of the command line there. *)
Definition configFile (w : World) : option string :=
  match flags with
  | fl :: _ => Some (default (flag_default fl) (flag_f w))
  | [] => None
  end.

Definition nonempty (s : string) : bool := negb (String.eqb s "").

(** The branch of [main] taken when [veneur.NewFromConfig] fails with
    [e]. *)
Definition report_failure (w : World) (conf : Config) (e : string)
  : P unit :=
  emit (LogError "Error initializing server");;
  sentry ← (if nonempty (SentryDsn conf) then
              emit (CallRavenNew (SentryDsn conf));;
              let '(client, err) := raven_New w (SentryDsn conf) in
              match err with
              | Some _ => emit (LogError "Error initializing Sentry client")
              | None => mret tt
              end;;
              mret client
            else mret None);
  emit CallHostname;;
  let hostname := Hostname w in
  let p := {| Message := e; ServerName := "" |} in
  let p := if nonempty hostname
           then {| Message := Message p; ServerName := hostname |}
           else p in
  emit (CallCapture sentry p);;
  emit WaitCapture;;
  Fatal "Could not initialize server".

(** A call that may panic or never return; [Next (Some r)] is a panic on
    its way to the deferred function. *)
Definition guarded (e : event) (r : call_result) : P (option string) :=
  emit e;;
  match r with
  | Returned => mret None
  | Panicked v => mret (Some v)
  | Blocked => stop BlocksForever
  end.

(** The statements of [main] that run under the deferred function. *)
Definition serve (w : World) (conf : Config) : P (option string) :=
  started ← guarded CallStart (Start w);
  match started with
  | Some v => mret (Some v)
  | None =>
      if nonempty (HTTPAddress conf)
      then guarded CallHTTPServe (HTTPServe w)
      else stop BlocksForever
  end.

(** The deferred function: it hands [recover()] to [veneur.ConsumePanic].
    When that returns, so does [main]. *)
Definition deferred (w : World) (recovered : option string) : P unit :=
  emit (CallConsumePanic recovered);;
  match ConsumePanic w recovered with
  | Returned => stop (Exit 0)
  | Panicked v => stop (Crash v)
  | Blocked => stop BlocksForever
  end.

(** [main] up to the check of the flag: the path of the configuration
    file. *)
Definition config_path (w : World) : P string :=
  match configFile w with
  | None => Fatal "You must specify a config file"
  | Some path =>
      if nonempty path then mret path
      else Fatal "You must specify a config file"
  end.

Definition read_config (w : World) (path : string) : P Config :=
  emit (CallReadConfig path);;
  let '(conf, err) := ReadConfig w path in
  match err with
  | Some _ => Fatal "Error reading config file"
  | None => mret conf
  end.

Definition build_server (w : World) (conf : Config) : P unit :=
  emit (CallNewFromConfig conf);;
  match NewFromConfig w conf with
  | Some e => report_failure w conf e
  | None => mret tt
  end.

Definition main_body (w : World) : P unit :=
  path ← config_path w;
  conf ← read_config w path;
  build_server w conf;;
  recovered ← serve w conf;
  deferred w recovered.

(** The calls of a run of [main], and how the process ends. *)
Definition main (w : World) : list event * outcome :=
  match main_body w with
  | (es, Stop o) => (es, o)
  | (es, Next _) => (es, Exit 0)
  end.

Definition trace_of (w : World) : list event := fst (main w).
Definition outcome_of (w : World) : outcome := snd (main w).

(** What the claims look for in a run. *)
Definition is_RavenNew (e : event) : bool :=
  match e with CallRavenNew _ => true | _ => false end.
Definition is_Capture (e : event) : bool :=
  match e with CallCapture _ _ => true | _ => false end.
Definition is_delivery (e : event) : bool :=
  match e with CallCapture (Some _) _ => true | _ => false end.
Definition is_server_call (e : event) : bool :=
  match e with
  | CallNewFromConfig _ | CallStart | CallHTTPServe => true
  | _ => false
  end.

(** The packet [main] reports a failure with. *)
Definition failure_packet (w : World) (e : string) : Packet :=
  if nonempty (Hostname w)
  then {| Message := e; ServerName := Hostname w |}
  else {| Message := e; ServerName := "" |}.

(** A run in which the configuration has no DSN and the server cannot be
    built. *)
Definition failing_world : World :=
  {| flag_f := Some "veneur.yaml"%string;
     ReadConfig := fun _ => ({| SentryDsn := ""; HTTPAddress := ":8127" |}, None);
     NewFromConfig := fun _ => Some "listen udp: address already in use"%string;
     raven_New := fun dsn => (Some (mkClient dsn), None);
     Hostname := "host1";
     Start := Returned;
     HTTPServe := Blocked;
     ConsumePanic := fun _ => Returned |}.

(** Runs in which the server is built and started, without and with an
    HTTP address. *)
Definition quiet_world : World :=
  {| flag_f := Some "veneur.yaml"%string;
     ReadConfig := fun _ => ({| SentryDsn := ""; HTTPAddress := "" |}, None);
     NewFromConfig := fun _ => None;
     raven_New := fun dsn => (Some (mkClient dsn), None);
     Hostname := "host1";
     Start := Returned;
     HTTPServe := Returned;
     ConsumePanic := fun _ => Returned |}.

Definition serving_world : World :=
  {| flag_f := Some "veneur.yaml"%string;
     ReadConfig := fun _ => ({| SentryDsn := "https://key@sentry.example/1";
                                HTTPAddress := ":8127" |}, None);
     NewFromConfig := fun _ => None;
     raven_New := fun dsn => (Some (mkClient dsn), None);
     Hostname := "host1";
     Start := Returned;
     HTTPServe := Panicked "listen tcp :8127: bind: address already in use";
     ConsumePanic := fun r => match r with
                             | Some v => Panicked v
                             | None => Returned
                             end |}.

(** A run in which a DSN is configured, the server cannot be built, and
    [raven.New] returns a client together with an error. *)
Definition reporting_world : World :=
  {| flag_f := Some "veneur.yaml"%string;
     ReadConfig := fun _ => ({| SentryDsn := "https://key@sentry.example/1";
                                HTTPAddress := "" |}, None);
     NewFromConfig := fun _ => Some "listen udp: address already in use"%string;
     raven_New := fun dsn => (Some (mkClient dsn), Some "dsn: no project id"%string);
     Hostname := "";
     Start := Returned;
     HTTPServe := Blocked;
     ConsumePanic := fun _ => Returned |}.

(** How the process ends once the deferred function has handed
    [recovered] to [veneur.ConsumePanic]. *)
Definition settle (w : World) (recovered : option string) : outcome :=
  match ConsumePanic w recovered with
  | Returned => Exit 0
  | Panicked v => Crash v
  | Blocked => BlocksForever
  end.

Definition is_running (e : event) : bool :=
  match e with CallStart | CallHTTPServe => true | _ => false end.

End cmd.

(** ** Routing of samples to workers by digest *)
Module routing.

(** Modelled from the spec: the sample of the data model; no parser,
    digest or worker code is among the sources. A float is carried as its
    64-bit pattern. *)
Inductive Kind : Type := Counter | Gauge | SetKind | Histogram | Timer | Status.
Inductive Scope : Type := Local | Global.
Inductive Value : Type :=
| Number (bits : Z)
| Bytes (b : string)
| Level (l : Z).

Record Sample : Type := {
  name : string;
  kind : Kind;
  value : Value;
  tags : list (string * string);
  sample_rate : Z;
  scope : Scope;
}.

(** Modelled from the spec: tags are canonicalized by lexicographic sort
    on the key. *)
Fixpoint insert_tag (t : string * string) (l : list (string * string))
  : list (string * string) :=
  match l with
  | [] => [t]
  | u :: l' =>
      if String.leb (fst t) (fst u) then t :: l else u :: insert_tag t l'
  end.

Definition sort_tags (l : list (string * string)) : list (string * string) :=
  foldr insert_tag [] l.

(** Modelled from the spec: the canonical tuple (name, kind, sorted
    tags). *)
Record MetricKey : Type := {
  key_name : string;
  key_kind : Kind;
  key_tags : list (string * string);
}.

Definition MetricKey_of (s : Sample) : MetricKey :=
  {| key_name := name s; key_kind := kind s;
     key_tags := sort_tags (tags s) |}.

(** What differs from one process to the next: nothing of it reaches the
    digest. *)
Record Process : Type := {
  pid : Z;
  start_entropy : Z;
}.

Section digest.
(** The byte serialization of a key and the mixer are left open by the
    spec, and so are they here; the seed is a constant of the binary. *)
Variable serialize : MetricKey -> list Byte.byte.
Variable mixer : Z -> list Byte.byte -> Z.
Variable seed : Z.

(** Modelled from the spec: the 64-bit hash of the canonical MetricKey
    byte serialization, under a fixed seed. *)
Definition digest (s : Sample) : Z :=
  mixer seed (serialize (MetricKey_of s)) mod 2 ^ 64.

(** Modelled from the spec: the owning worker is digest mod N. *)
Definition worker (proc : Process) (N : Z) (s : Sample) : Z :=
  digest s mod N.
End digest.

(** One serialization and one mixer (FNV-1a, 64 bits), to run the
    definitions on. *)
Definition kind_byte (k : Kind) : Byte.byte :=
  match k with
  | Counter => Byte.x63 | Gauge => Byte.x67 | SetKind => Byte.x73
  | Histogram => Byte.x68 | Timer => Byte.x6d | Status => Byte.x53
  end.

Definition bytes_of (s : string) : list Byte.byte := list_byte_of_string s.

Definition serialize_key (k : MetricKey) : list Byte.byte :=
  bytes_of (key_name k) ++ [Byte.x00; kind_byte (key_kind k)] ++
  flat_map (fun t => Byte.x00 :: bytes_of (fst t) ++ Byte.x3d :: bytes_of (snd t))
           (key_tags k).

Definition fnv1a64 (seed : Z) (bs : list Byte.byte) : Z :=
  fold_left
    (fun h b => (Z.lxor h (Z.of_N (Byte.to_N b)) * 1099511628211) mod 2 ^ 64)
    bs seed.

Definition fnv_offset64 : Z := 14695981039346656037.

End routing.
(** ** Concrete inputs, to run the definitions on *)
Module fixtures.
Import trace.

Definition trace0 : Trace :=
  {| TraceId := 7; SpanId := 9; ParentId := 8; Resource := "checkout" |}.

Definition span0 : Span :=
  {| tracer := mkTracer; Trace_ptr := Some 1%positive; logLines := [] |}.

Definition store0 : store :=
  {| contexts := ∅; traces := {[ 1%positive := trace0 ]} |}.

(** Two ways of visiting a map, and a schedule that alternates them. *)
Definition forwards : order := fun m => map_to_list m.
Definition backwards : order := fun m => reverse (map_to_list m).
Definition alternating : schedule :=
  fun i => if Nat.even i then forwards else backwards.

(** A stand-in for the protocol-buffer codec: the first byte of a packet
    is the trace id, and an empty packet does not unmarshal. *)
Definition ext0 : Externals :=
  {| ProtoMarshalTo := fun t w =>
       Return (w ++ [Byte.x2a], None);
     Unmarshal := fun packet =>
       match packet with
       | [] => Return (Err (ErrForeign "unexpected EOF"))
       | b :: _ =>
           Return (Ok {| ssf.Trace :=
                           Some {| ssf.TraceId := Z.of_N (Byte.to_N b);
                                   ssf.Id := 9; ssf.ParentId := 8;
                                   ssf.Resource := "checkout" |} |})
       end |}.

Definition sample_a : routing.Sample :=
  {| routing.name := "api.latency"; routing.kind := routing.Timer;
     routing.value := routing.Number 100;
     routing.tags := [("region", "eu"); ("env", "prod")]%string;
     routing.sample_rate := 1; routing.scope := routing.Local |}.

Definition sample_b : routing.Sample :=
  {| routing.name := "api.latency"; routing.kind := routing.Timer;
     routing.value := routing.Number 250;
     routing.tags := [("env", "prod"); ("region", "eu")]%string;
     routing.sample_rate := 5; routing.scope := routing.Global |}.

Definition process_a : routing.Process :=
  {| routing.pid := 4021; routing.start_entropy := 17 |}.
Definition process_b : routing.Process :=
  {| routing.pid := 911; routing.start_entropy := 99 |}.



(** A text map with two keys that differ in case only. *)
Definition twice_traceid : gmap string string :=
  {[ "traceid"%string := "1"%string; "TraceID"%string := "2"%string ]}.

(** The baggage of a context whose trace id does not parse. *)
Definition broken_baggage : gmap string string :=
  {[ "TraceId"%string := "seven"%string; "resource"%string := "checkout"%string ]}.

Definition store1 : store :=
  {| contexts := {[ 5%positive := {| baggageItems := Some broken_baggage |} ]};
     traces := {[ 1%positive := trace0 ]} |}.

End fixtures.

(** The value of a digit sequence read from the left, starting from [acc]. *)
Fixpoint uint_val (d : Decimal.uint) (acc : Z) : Z :=
  match d with
  | Decimal.Nil => acc
  | Decimal.D0 l => uint_val l (acc * 10 + 0)
  | Decimal.D1 l => uint_val l (acc * 10 + 1)
  | Decimal.D2 l => uint_val l (acc * 10 + 2)
  | Decimal.D3 l => uint_val l (acc * 10 + 3)
  | Decimal.D4 l => uint_val l (acc * 10 + 4)
  | Decimal.D5 l => uint_val l (acc * 10 + 5)
  | Decimal.D6 l => uint_val l (acc * 10 + 6)
  | Decimal.D7 l => uint_val l (acc * 10 + 7)
  | Decimal.D8 l => uint_val l (acc * 10 + 8)
  | Decimal.D9 l => uint_val l (acc * 10 + 9)
  end.

Section strconv_facts.
Import strconv.

Lemma uint_val_ge d : forall acc, 0 <= acc -> acc <= uint_val d acc.
Proof.
  induction d; intros acc Hacc; simpl; [lia | ..];
    (etransitivity; [| apply IHd; lia]; lia).
Qed.

Lemma uint_val_of_uint_acc d :
  forall p, uint_val d (Z.pos p) = Z.pos (Pos.of_uint_acc d p).
Proof.
  induction d; intros p; simpl; [reflexivity | ..];
    (etransitivity; [| apply IHd]; f_equal; lia).
Qed.

Lemma uint_val_of_uint d : uint_val d 0 = Z.of_uint d.
Proof.
  unfold Z.of_uint.
  induction d; simpl; [reflexivity | exact IHd | ..];
    (etransitivity; [| apply (uint_val_of_uint_acc d)]; reflexivity).
Qed.

Lemma ParseUint_loop_digits d :
  forall n, 0 <= n -> uint_val d n <= maxUint64 ->
    ParseUint_loop (NilEmpty.string_of_uint d) n = Ok (uint_val d n).
Proof.
  induction d; intros n Hn Hmax;
    cbn [NilEmpty.string_of_uint ParseUint_loop uint_val] in *;
    [reflexivity | ..];
    (match goal with
     | |- context [digit_of ?c] =>
         let v := eval vm_compute in (digit_of c) in
         change (digit_of c) with v; cbv iota
     end;
     match type of Hmax with
     | uint_val d ?m <= _ => pose proof (uint_val_ge d m ltac:(lia)) as Hge
     end;
     rewrite (proj2 (Z.ltb_ge _ _)) by lia;
     apply IHd; lia).
Qed.


Lemma string_of_uint_nonempty d :
  d <> Decimal.Nil -> NilEmpty.string_of_uint d <> EmptyString.
Proof. destruct d; simpl; congruence. Qed.

Lemma ParseUint_digits d :
  d <> Decimal.Nil -> Z.of_uint d <= maxUint64 ->
  ParseUint (NilEmpty.string_of_uint d) = Ok (Z.of_uint d).
Proof.
  intros Hd Hmax. rewrite <- uint_val_of_uint in *.
  pose proof (ParseUint_loop_digits d 0 ltac:(lia) Hmax) as Hloop.
  unfold ParseUint.
  destruct (NilEmpty.string_of_uint d) eqn:E; [| exact Hloop].
  exfalso. revert E. now apply string_of_uint_nonempty.
Qed.

(** The first byte of a digit sequence is no sign. *)
Lemma string_of_uint_head d c s :
  NilEmpty.string_of_uint d = String c s ->
  Ascii.eqb c "+" = false /\ Ascii.eqb c "-" = false.
Proof. destruct d; simpl; intros [= <- _]; split; reflexivity. Qed.

(** Parsing what [FormatInt] printed gives the number back. *)
Lemma ParseInt_FormatInt z :
  is_int64 z -> ParseInt (FormatInt z) = Ok z.
Proof.
  unfold is_int64, minInt64, maxInt64. intros Hz.
  pose proof (DecimalZ.of_to z) as Hof.
  unfold FormatInt.
  destruct (Z.to_int z) as [d | d] eqn:Hd; simpl in Hof.
  - assert (Hnn : d <> Decimal.Nil).
    { destruct z; simpl in Hd; inversion Hd; subst; try discriminate.
      apply Unsigned.to_uint_nonnil. }
    assert (Hpos : 0 <= Z.of_uint d) by (unfold Z.of_uint; lia).
    pose proof (ParseUint_digits d Hnn ltac:(unfold maxUint64; lia)) as HP.
    simpl. destruct (NilEmpty.string_of_uint d) as [| c s] eqn:E.
    { exfalso. revert E. now apply string_of_uint_nonempty. }
    destruct (string_of_uint_head _ _ _ E) as [Hplus Hminus].
    unfold ParseInt. rewrite Hplus, Hminus. cbn [orb negb andb].
    rewrite HP. rewrite Hof.
    rewrite (proj2 (Z.leb_gt _ _)) by lia. reflexivity.
  - assert (Hnn : d <> Decimal.Nil).
    { destruct z; simpl in Hd; inversion Hd; subst.
      apply Unsigned.to_uint_nonnil. }
    assert (Hpos : 0 <= Z.of_uint d) by (unfold Z.of_uint; lia).
    pose proof (ParseUint_digits d Hnn ltac:(unfold maxUint64; lia)) as HP.
    simpl. unfold ParseInt.
    change (Ascii.eqb "-" "+") with false.
    change (Ascii.eqb "-" "-") with true. cbn [orb negb andb].
    rewrite HP.
    rewrite (proj2 (Z.ltb_ge _ _)) by lia. f_equal. lia.
Qed.


End strconv_facts.

(** ** Facts about package [trace] *)

(** Unfolding one step of code on the store. *)
Lemma M_bind_Return {A B} (m : trace.M A) (f : A -> trace.M B) σ a σ' :
  m σ = (Return a, σ') -> (m ≫= f) σ = f a σ'.
Proof. unfold mbind, trace.M_bind. now intros ->. Qed.

Lemma M_bind_Panic {A B} (m : trace.M A) (f : A -> trace.M B) σ r σ' :
  m σ = (Panic r, σ') -> (m ≫= f) σ = (Panic r, σ').
Proof. unfold mbind, trace.M_bind. now intros ->. Qed.

(** One statement of code on the store, run by the lemma that describes
    it. *)
Tactic Notation "step" uconstr(lem) :=
  erewrite M_bind_Return by (apply lem); cbv beta iota.

Section trace_facts.
Import trace.

Lemma deref_insert l ctx cs ts :
  deref (Some l) {| contexts := <[l := ctx]> cs; traces := ts |}
  = (Return ctx, {| contexts := <[l := ctx]> cs; traces := ts |}).
Proof. unfold deref. cbn [contexts]. now rewrite lookup_insert_eq. Qed.

Lemma set_baggage_insert l m k v cs ts :
  set_baggage l k v
    {| contexts := <[l := {| baggageItems := Some m |}]> cs; traces := ts |}
  = (Return tt,
     {| contexts := <[l := {| baggageItems := Some (<[k := v]> m) |}]> cs;
        traces := ts |}).
Proof.
  unfold set_baggage. erewrite M_bind_Return by apply deref_insert.
  cbn [baggageItems]. unfold write. cbn [contexts traces].
  now rewrite insert_insert_eq.
Qed.

Lemma Init_insert l ctx cs ts :
  spanContext.Init l {| contexts := <[l := ctx]> cs; traces := ts |}
  = (Return tt,
     {| contexts := <[l := {| baggageItems := Some ∅ |}]> cs; traces := ts |}).
Proof.
  unfold spanContext.Init. erewrite M_bind_Return by apply deref_insert.
  unfold write. cbn [contexts traces]. now rewrite insert_insert_eq.
Qed.

Lemma new_spanContext_run σ :
  new_spanContext σ
  = (Return (fresh (dom (contexts σ))),
     {| contexts := <[fresh (dom (contexts σ)) := {| baggageItems := None |}]>
                      (contexts σ);
        traces := traces σ |}).
Proof. reflexivity. Qed.

Lemma Trace_context_run t σ :
  Trace_context t σ
  = (Return (fresh (dom (contexts σ))),
     with_context σ (fresh (dom (contexts σ))) (own_baggage t)).
Proof.
  unfold Trace_context.
  erewrite M_bind_Return by apply new_spanContext_run.
  erewrite M_bind_Return by apply Init_insert.
  do 4 (erewrite M_bind_Return by apply set_baggage_insert).
  reflexivity.
Qed.

Lemma load_trace_run s p t σ :
  Trace_ptr s = Some p -> traces σ !! p = Some t ->
  load_trace s σ = (Return t, σ).
Proof. unfold load_trace. now intros -> ->. Qed.

Lemma contextAsParent_run s p t σ :
  Trace_ptr s = Some p -> traces σ !! p = Some t ->
  Span.contextAsParent s σ
  = (Return (fresh (dom (contexts σ))),
     with_context σ (fresh (dom (contexts σ))) (parent_baggage t)).
Proof.
  intros Hp Ht. unfold Span.contextAsParent.
  erewrite M_bind_Return by apply new_spanContext_run.
  erewrite M_bind_Return by apply Init_insert.
  do 3 (erewrite M_bind_Return by (apply (load_trace_run s p t); [exact Hp | exact Ht]);
        erewrite M_bind_Return by apply set_baggage_insert).
  reflexivity.
Qed.

(** *** Loops over the entries of a map *)

Lemma foreach_none {S} (handler : string -> string -> S -> exec (S * option error))
    (entries : list (string * string)) (s : S) :
  (forall k v s', (k, v) ∈ entries -> handler k v s' = Return (s', None)) ->
  textMapReaderWriter.foreach entries handler s = Return (s, None).
Proof.
  induction entries as [| [k v] rest IH]; intros Hskip; simpl; [reflexivity |].
  rewrite Hskip by left. simpl. apply IH.
  intros k' v' s' Hin. apply Hskip. now right.
Qed.

Lemma foreach_hit {S} (handler : string -> string -> S -> exec (S * option error))
    (entries : list (string * string)) (k0 v0 : string) (s x : S) (e : error) :
  (k0, v0) ∈ entries ->
  (forall k v s', (k, v) ∈ entries -> (k, v) <> (k0, v0) ->
                  handler k v s' = Return (s', None)) ->
  (forall s', handler k0 v0 s' = Return (x, Some e)) ->
  textMapReaderWriter.foreach entries handler s = Return (x, Some e).
Proof.
  induction entries as [| [k v] rest IH]; intros Hin Hskip Hhit.
  - now apply elem_of_nil in Hin.
  - simpl. destruct (decide ((k, v) = (k0, v0))) as [[= -> ->] | Hne].
    + now rewrite Hhit.
    + rewrite Hskip by (left || exact Hne). simpl. apply IH.
      * apply elem_of_cons in Hin as [Heq | Hin]; [congruence | exact Hin].
      * intros k' v' s' Hin' Hne'. apply Hskip; [now right | exact Hne'].
      * exact Hhit.
Qed.

Lemma range_order_elem ord (m : gmap string string) k v :
  range_order ord -> (k, v) ∈ ord m <-> m !! k = Some v.
Proof. intros Hord. rewrite (Hord m). apply elem_of_map_to_list. Qed.

(** *** The accessors of a span context *)

Lemma deref_run l ctx σ :
  contexts σ !! l = Some ctx -> deref (Some l) σ = (Return ctx, σ).
Proof. unfold deref. now intros ->. Qed.

Lemma ForeachBaggageItem_run {S} ord l ctx σ
    (handler : string -> string -> S -> S * bool) (s : S) r :
  contexts σ !! l = Some ctx ->
  textMapReaderWriter.foreach (ord (items ctx))
    (fun k v s => let '(s', b) := handler k v s in
                  Return (s', if b then None else Some ErrDummy)) s
  = Return r ->
  spanContext.ForeachBaggageItem ord (Some l) handler s σ = (Return (fst r), σ).
Proof.
  intros Hctx Hloop. unfold spanContext.ForeachBaggageItem.
  erewrite M_bind_Return by (apply deref_run; exact Hctx).
  unfold textMapReaderWriter.ForeachKey, lift. unfold mbind at 1, M_bind.
  now rewrite Hloop.
Qed.

Lemma parseBaggageInt64_hit ord l ctx σ key k0 v0 i :
  range_order ord -> contexts σ !! l = Some ctx ->
  names (items ctx) key k0 v0 -> strconv.ParseInt v0 = Ok i ->
  spanContext.parseBaggageInt64 ord (Some l) key σ = (Return i, σ).
Proof.
  intros Hord Hctx (Hk0 & Hlow & Huniq) Hparse.
  unfold spanContext.parseBaggageInt64.
  erewrite ForeachBaggageItem_run with (r := (i, Some ErrDummy));
    [reflexivity | exact Hctx |].
  apply foreach_hit with (k0 := k0) (v0 := v0).
  - now apply range_order_elem.
  - intros k v s' Hin Hne. apply range_order_elem in Hin; [| exact Hord].
    destruct (String.eqb_spec (strs.ToLower k) (strs.ToLower key)) as [Heq | _];
      [| reflexivity].
    exfalso. apply Hne. pose proof (Huniq k v Hin Heq) as ->. congruence.
  - intros s'. rewrite Hlow, String.eqb_refl, Hparse. reflexivity.
Qed.

Lemma parseBaggageInt64_miss ord l ctx σ key :
  range_order ord -> contexts σ !! l = Some ctx ->
  unnamed (items ctx) key ->
  spanContext.parseBaggageInt64 ord (Some l) key σ = (Return 0, σ).
Proof.
  intros Hord Hctx Hun. unfold spanContext.parseBaggageInt64.
  erewrite ForeachBaggageItem_run with (r := (0, None));
    [reflexivity | exact Hctx |].
  apply foreach_none. intros k v s' Hin.
  apply range_order_elem in Hin; [| exact Hord].
  destruct (String.eqb_spec (strs.ToLower k) (strs.ToLower key)) as [Heq | _];
    [| reflexivity].
  now apply Hun in Hin.
Qed.

Lemma Resource_hit ord l ctx σ k0 v0 :
  range_order ord -> contexts σ !! l = Some ctx ->
  names (items ctx) "resource" k0 v0 ->
  spanContext.Resource ord (Some l) σ = (Return v0, σ).
Proof.
  intros Hord Hctx (Hk0 & Hlow & Huniq).
  unfold spanContext.Resource.
  erewrite ForeachBaggageItem_run with (r := (v0, Some ErrDummy));
    [reflexivity | exact Hctx |].
  apply foreach_hit with (k0 := k0) (v0 := v0).
  - now apply range_order_elem.
  - intros k v s' Hin Hne. apply range_order_elem in Hin; [| exact Hord].
    destruct (String.eqb_spec (strs.ToLower k) "resource") as [Heq | _];
      [| reflexivity].
    exfalso. apply Hne. pose proof (Huniq k v Hin Heq) as ->. congruence.
  - intros s'. change (strs.ToLower "resource") with "resource"%string in Hlow.
    rewrite Hlow. reflexivity.
Qed.

Lemma textMapReaderGet_hit ord (m : gmap string string) key k0 v0 :
  range_order ord -> names m key k0 v0 ->
  textMapReaderGet ord (Some m) key = Return v0.
Proof.
  intros Hord (Hk0 & Hlow & Huniq). unfold textMapReaderGet.
  unfold textMapReaderWriter.ForeachKey.
  change (default ∅ (Some m)) with m.
  erewrite foreach_hit with (k0 := k0) (v0 := v0) (x := v0) (e := ErrDummy);
    [reflexivity | now apply range_order_elem | |].
  - intros k v s' Hin Hne. apply range_order_elem in Hin; [| exact Hord].
    destruct (String.eqb_spec (strs.ToLower key) (strs.ToLower k)) as [Heq | _];
      [| reflexivity].
    exfalso. apply Hne. pose proof (Huniq k v Hin (eq_sym Heq)) as ->. congruence.
  - intros s'. rewrite Hlow, String.eqb_refl. reflexivity.
Qed.


(** *** The two baggage maps *)

Lemma own_baggage_keys t k v :
  own_baggage t !! k = Some v ->
  k = "resource"%string \/ k = "spanid"%string \/
  k = "parentid"%string \/ k = "traceid"%string.
Proof.
  unfold own_baggage. intros H.
  repeat (apply lookup_insert_Some in H as [[<- _] | [_ H]]; [tauto |]).
  now rewrite lookup_empty in H.
Qed.

Lemma parent_baggage_keys t k v :
  parent_baggage t !! k = Some v ->
  k = "resource"%string \/ k = "parentid"%string \/ k = "traceid"%string.
Proof.
  unfold parent_baggage. intros H.
  repeat (apply lookup_insert_Some in H as [[<- _] | [_ H]]; [tauto |]).
  now rewrite lookup_empty in H.
Qed.

Ltac solve_names keys :=
  split; [reflexivity | split; [reflexivity |]];
  let k := fresh "k" in let v := fresh "v" in
  let Hk := fresh "Hk" in let Hl := fresh "Hl" in
  intros k v Hk Hl; apply keys in Hk;
  repeat (destruct Hk as [-> | Hk]); subst;
  first [reflexivity | vm_compute in Hl; discriminate Hl].

Lemma own_baggage_traceid t :
  names (own_baggage t) "traceid" "traceid" (strconv.FormatInt (TraceId t)).
Proof. solve_names own_baggage_keys. Qed.

Lemma own_baggage_parentid t :
  names (own_baggage t) "parentid" "parentid" (strconv.FormatInt (ParentId t)).
Proof. solve_names own_baggage_keys. Qed.

Lemma own_baggage_spanid t :
  names (own_baggage t) "spanid" "spanid" (strconv.FormatInt (SpanId t)).
Proof. solve_names own_baggage_keys. Qed.

Lemma own_baggage_resource t :
  names (own_baggage t) "resource" "resource" (Resource t).
Proof. solve_names own_baggage_keys. Qed.

Lemma parent_baggage_no_spanid t : unnamed (parent_baggage t) "spanid".
Proof.
  intros k v Hk Hl. apply parent_baggage_keys in Hk.
  repeat (destruct Hk as [-> | Hk]); subst; vm_compute in Hl; discriminate Hl.
Qed.

Lemma lift_run {A} (e : exec A) σ : lift e σ = (e, σ).
Proof. reflexivity. Qed.

Lemma with_context_lookup σ l m :
  contexts (with_context σ l m) !! l = Some {| baggageItems := Some m |}.
Proof. unfold with_context. cbn [contexts]. apply lookup_insert_eq. Qed.


(** *** Cloning a map into a text-map carrier *)

Lemma foreach_Set entries :
  NoDup entries.*1 ->
  forall m : gmap string string,
    textMapReaderWriter.foreach entries
      (fun k v w => w' ← textMapReaderWriter.Set_ w k v; mret (w', None))
      (Some m)
    = Return (Some (list_to_map entries ∪ m), None).
Proof.
  induction entries as [| [k v] rest IH]; intros Hnd m.
  - simpl. now rewrite (left_id ∅ (∪)).
  - rewrite fmap_cons in Hnd. apply NoDup_cons in Hnd as [Hk Hrest].
    simpl. rewrite (IH Hrest). do 3 f_equal.
    rewrite <- insert_union_r by now apply not_elem_of_list_to_map_1.
    now rewrite insert_union_l.
Qed.

Lemma CloneTo_run ord (b m : gmap string string) :
  range_order ord ->
  textMapReaderWriter.CloneTo ord b (Some m) = Return (Some (b ∪ m)).
Proof.
  intros Hord. unfold textMapReaderWriter.CloneTo, textMapReaderWriter.ForeachKey.
  rewrite foreach_Set.
  - simpl. do 3 f_equal. symmetry. apply list_to_map_flip. symmetry. apply Hord.
  - rewrite (Hord b). apply NoDup_fst_map_to_list.
Qed.


Lemma textMapReaderGet_total ord tm key :
  exists v, textMapReaderGet ord tm key = Return v.
Proof.
  unfold textMapReaderGet, textMapReaderWriter.ForeachKey.
  generalize (ord (default ∅ tm)) as entries. generalize EmptyString as s.
  intros s entries. revert s.
  induction entries as [| [k v] rest IH]; intros s; simpl.
  - now exists s.
  - destruct (String.eqb (strs.ToLower key) (strs.ToLower k)); simpl.
    + now exists v.
    + apply IH.
Qed.

(** *** The methods of [Span] that go through a fresh context *)

Lemma BaggageItem_run s p t σ k :
  Trace_ptr s = Some p -> traces σ !! p = Some t ->
  Span.BaggageItem s k σ
  = (Return (default EmptyString (parent_baggage t !! k)),
     with_context σ (fresh (dom (contexts σ))) (parent_baggage t)).
Proof.
  intros Hp Ht. unfold Span.BaggageItem.
  step (contextAsParent_run s p t σ Hp Ht).
  step (deref_run _ _ _ (with_context_lookup _ _ _)).
  reflexivity.
Qed.

Lemma SetBaggageItem_run s p t σ k v :
  Trace_ptr s = Some p -> traces σ !! p = Some t ->
  Span.SetBaggageItem s k v σ
  = (Return s,
     with_context σ (fresh (dom (contexts σ))) (<[k := v]> (parent_baggage t))).
Proof.
  intros Hp Ht. unfold Span.SetBaggageItem.
  step (contextAsParent_run s p t σ Hp Ht).
  unfold with_context at 1. step set_baggage_insert.
  reflexivity.
Qed.

Lemma Context_run s p t σ :
  Trace_ptr s = Some p -> traces σ !! p = Some t ->
  Span.Context s σ
  = (Return (OwnContext (Some (fresh (dom (contexts σ))))),
     with_context σ (fresh (dom (contexts σ))) (parent_baggage t)).
Proof.
  intros Hp Ht. unfold Span.Context.
  step (contextAsParent_run s p t σ Hp Ht). reflexivity.
Qed.

End trace_facts.

(** ** The claims about [Tracer.Extract] and [Tracer.Inject] *)
Section tracer_claims.
Import trace.
Variable ext : Externals.




End tracer_claims.

(** ** The claim about [Span.SetBaggageItem] *)
Section span_claims.
Import trace.

(** C2. [SetBaggageItem] leaves everything that can be observed of a span
    as it was: it returns the span, the traces and the contexts that
    existed are untouched (the write lands in an object allocated by the
    call), and a later [BaggageItem], for the key written or any other,
    and a later [Context] give what they give without the call. *)
Theorem SetBaggageItem_no_effect s p t σ k v :
  Trace_ptr s = Some p -> traces σ !! p = Some t ->
  exists σ1,
    Span.SetBaggageItem s k v σ = (Return s, σ1) /\
    traces σ1 = traces σ /\
    (forall l, l ∈ dom (contexts σ) -> contexts σ1 !! l = contexts σ !! l) /\
    (forall k', fst (Span.BaggageItem s k' σ1) = fst (Span.BaggageItem s k' σ)) /\
    pointee (Span.Context s σ1) = pointee (Span.Context s σ) /\
    is_Some (pointee (Span.Context s σ)).
Proof.
  intros Hp Ht. eexists. split; [apply (SetBaggageItem_run s p t σ k v Hp Ht) |].
  set (σ1 := with_context σ _ _).
  assert (Ht1 : traces σ1 !! p = Some t) by exact Ht.
  split; [reflexivity | split; [| split; [| split]]].
  - intros l Hl. unfold σ1, with_context. cbn [contexts].
    apply lookup_insert_ne. intros <-. now apply is_fresh in Hl.
  - intros k'.
    rewrite (BaggageItem_run s p t σ1 k' Hp Ht1).
    now rewrite (BaggageItem_run s p t σ k' Hp Ht).
  - rewrite (Context_run s p t σ1 Hp Ht1), (Context_run s p t σ Hp Ht).
    unfold pointee. now rewrite !with_context_lookup.
  - rewrite (Context_run s p t σ Hp Ht).
    unfold pointee. rewrite with_context_lookup. eauto.
Qed.

End span_claims.

(** ** The claims about [main] *)
Section main_claims.
Import cmd.

Lemma nonempty_true s : s <> EmptyString -> nonempty s = true.
Proof.
  intros Hs. unfold nonempty. now destruct (String.eqb_spec s EmptyString).
Qed.

Lemma nonempty_false s : s = EmptyString -> nonempty s = false.
Proof. now intros ->. Qed.

Lemma P_bind_Stop {A B} es o (f : A -> P B) :
  ((es, Stop o) : P A) ≫= f = (es, Stop o).
Proof. reflexivity. Qed.

Lemma P_bind_Next {A B} es (a : A) (f : A -> P B) :
  ((es, Next a) : P A) ≫= f = (es ++ fst (f a), snd (f a)).
Proof. unfold mbind, P_bind. now destruct (f a). Qed.

Lemma config_path_given w path :
  flag_f w = Some path -> path <> EmptyString ->
  config_path w = ([], Next path).
Proof.
  intros Hf Hpath. unfold config_path, configFile. cbn [flags].
  rewrite Hf. cbn [default from_option id]. unfold id.
  now rewrite (nonempty_true path Hpath).
Qed.

Lemma read_config_ok w path conf :
  ReadConfig w path = (conf, None) ->
  read_config w path = ([CallReadConfig path], Next conf).
Proof. intros H. unfold read_config. now rewrite H. Qed.

Lemma read_config_error w path e :
  snd (ReadConfig w path) = Some e ->
  read_config w path
  = ([CallReadConfig path; LogFatal "Error reading config file"],
     Stop (Exit 1)).
Proof.
  unfold read_config. destruct (ReadConfig w path) as [conf err].
  cbn [snd]. now intros ->.
Qed.

Lemma report_failure_no_dsn w conf e :
  SentryDsn conf = EmptyString ->
  report_failure w conf e
  = ([LogError "Error initializing server"; CallHostname;
      CallCapture None (failure_packet w e); WaitCapture;
      LogFatal "Could not initialize server"],
     Stop (Exit 1)).
Proof.
  intros Hdsn. unfold report_failure, failure_packet. rewrite Hdsn.
  destruct (nonempty (Hostname w)); reflexivity.
Qed.

(** The run of [main] when the server cannot be built and no DSN is
    configured. *)
Lemma main_failure_no_dsn w path conf e :
  flag_f w = Some path -> path <> EmptyString ->
  ReadConfig w path = (conf, None) ->
  NewFromConfig w conf = Some e ->
  SentryDsn conf = EmptyString ->
  main w
  = ([CallReadConfig path; CallNewFromConfig conf;
      LogError "Error initializing server"; CallHostname;
      CallCapture None (failure_packet w e); WaitCapture;
      LogFatal "Could not initialize server"],
     Exit 1).
Proof.
  intros Hf Hpath Hconf Hnew Hdsn. unfold main, main_body.
  rewrite (config_path_given w path Hf Hpath), P_bind_Next. cbn [fst snd app].
  rewrite (read_config_ok w path conf Hconf), P_bind_Next. cbn [fst snd app].
  unfold build_server. rewrite Hnew, (report_failure_no_dsn w conf e Hdsn).
  reflexivity.
Qed.

(** C4. The command line is the single flag [-f]; when it is absent (or
    empty), or the configuration file it names cannot be read, the process
    exits with code 1 and neither builds nor starts a server. *)
Theorem main_config_error w :
  (flag_f w = None \/
   exists path e, flag_f w = Some path /\ snd (ReadConfig w path) = Some e) ->
  map flag_name flags = ["f"%string] /\
  outcome_of w = Exit 1 /\
  forallb (fun e => negb (is_server_call e)) (trace_of w) = true.
Proof.
  intros H. split; [reflexivity |].
  unfold trace_of, outcome_of, main, main_body.
  destruct H as [Hf | (path & e & Hf & Herr)].
  - unfold config_path, configFile. cbn [flags]. rewrite Hf.
    split; reflexivity.
  - destruct (String.eqb_spec path EmptyString) as [-> | Hpath].
    + unfold config_path, configFile. cbn [flags]. rewrite Hf.
      split; reflexivity.
    + rewrite (config_path_given w path Hf Hpath), P_bind_Next.
      cbn [fst snd app].
      rewrite (read_config_error w path e Herr).
      split; reflexivity.
Qed.

(** C1, as stated, fails: with an empty DSN and a server that cannot be
    built, [main] creates no client but does call [Capture], on the nil
    client. *)
Lemma main_captures_without_dsn :
  SentryDsn (fst (ReadConfig failing_world "veneur.yaml")) = EmptyString /\
  NewFromConfig failing_world (fst (ReadConfig failing_world "veneur.yaml"))
  = Some "listen udp: address already in use"%string /\
  trace_of failing_world
  = [CallReadConfig "veneur.yaml";
     CallNewFromConfig {| SentryDsn := ""; HTTPAddress := ":8127" |};
     LogError "Error initializing server"; CallHostname;
     CallCapture None
       {| Message := "listen udp: address already in use";
          ServerName := "host1" |};
     WaitCapture; LogFatal "Could not initialize server"] /\
  forallb (fun e => negb (is_Capture e)) (trace_of failing_world) = false.
Proof. repeat split. Qed.

(** C1, amended. With an empty DSN, on the path taken when the server
    cannot be built, no Sentry client is created; [main] still makes one
    [Capture] call, on the nil client, so that no packet is handed to a
    client; the process then exits with code 1. *)
Theorem main_no_client_without_dsn w path conf e :
  flag_f w = Some path -> path <> EmptyString ->
  ReadConfig w path = (conf, None) ->
  NewFromConfig w conf = Some e ->
  SentryDsn conf = EmptyString ->
  forallb (fun ev => negb (is_RavenNew ev)) (trace_of w) = true /\
  List.filter is_Capture (trace_of w) = [CallCapture None (failure_packet w e)] /\
  forallb (fun ev => negb (is_delivery ev)) (trace_of w) = true /\
  outcome_of w = Exit 1.
Proof.
  intros Hf Hpath Hconf Hnew Hdsn. unfold trace_of, outcome_of.
  rewrite (main_failure_no_dsn w path conf e Hf Hpath Hconf Hnew Hdsn).
  repeat split.
Qed.

(** C7. Once the server is built and started: with an empty HTTP address
    the HTTP endpoint is not served and the process blocks for ever instead
    of exiting; with an address, the endpoint is served right after the
    start. *)
Theorem main_http_address w path conf :
  flag_f w = Some path -> path <> EmptyString ->
  ReadConfig w path = (conf, None) ->
  NewFromConfig w conf = None ->
  Start w = Returned ->
  (HTTPAddress conf = EmptyString ->
   main w = ([CallReadConfig path; CallNewFromConfig conf; CallStart],
             BlocksForever)) /\
  (HTTPAddress conf <> EmptyString ->
   exists rest,
     trace_of w
     = [CallReadConfig path; CallNewFromConfig conf; CallStart; CallHTTPServe]
         ++ rest).
Proof.
  intros Hf Hpath Hconf Hnew Hstart. unfold trace_of, main, main_body.
  rewrite (config_path_given w path Hf Hpath), P_bind_Next. cbn [fst snd app].
  rewrite (read_config_ok w path conf Hconf), P_bind_Next. cbn [fst snd app].
  unfold build_server, serve, guarded. rewrite Hnew, Hstart. split.
  - intros Haddr. rewrite (nonempty_false _ Haddr). reflexivity.
  - intros Haddr. rewrite (nonempty_true _ Haddr). unfold deferred.
    destruct (HTTPServe w) as [| r |]; cbn;
      try destruct (ConsumePanic w _); cbn; eauto.
Qed.

End main_claims.

(** ** The claim about routing *)
Section routing_claims.
Import routing.
Variable serialize : MetricKey -> list Byte.byte.
Variable mixer : Z -> list Byte.byte -> Z.
Variable seed : Z.


End routing_claims.

(** ** The claims at concrete inputs *)
Section witnesses.
Import trace fixtures.

Lemma forwards_order : range_order forwards.
Proof. intros m. reflexivity. Qed.

Lemma backwards_order : range_order backwards.
Proof. intros m. unfold backwards. apply reverse_Permutation. Qed.

Lemma alternating_schedule : range_schedule alternating.
Proof.
  intros i. unfold alternating.
  destruct (Nat.even i); [apply forwards_order | apply backwards_order].
Qed.

Lemma is_int64_small z : -100 <= z <= 100 -> strconv.is_int64 z.
Proof. unfold strconv.is_int64, strconv.minInt64, strconv.maxInt64. lia. Qed.

Lemma SetBaggageItem_no_effect_witness :
  exists σ1,
    Span.SetBaggageItem span0 "traceid" "999" store0 = (Return span0, σ1) /\
    traces σ1 = traces store0 /\
    (forall l, l ∈ dom (contexts store0) ->
               contexts σ1 !! l = contexts store0 !! l) /\
    (forall k', fst (Span.BaggageItem span0 k' σ1)
                = fst (Span.BaggageItem span0 k' store0)) /\
    pointee (Span.Context span0 σ1) = pointee (Span.Context span0 store0) /\
    is_Some (pointee (Span.Context span0 store0)).
Proof.
  apply (SetBaggageItem_no_effect span0 1%positive trace0 store0);
    reflexivity.
Defined.



Lemma main_config_error_witness :
  map cmd.flag_name cmd.flags = ["f"%string] /\
  cmd.outcome_of
    {| cmd.flag_f := None;
       cmd.ReadConfig := cmd.ReadConfig cmd.failing_world;
       cmd.NewFromConfig := cmd.NewFromConfig cmd.failing_world;
       cmd.raven_New := cmd.raven_New cmd.failing_world;
       cmd.Hostname := "host1";
       cmd.Start := cmd.Returned;
       cmd.HTTPServe := cmd.Blocked;
       cmd.ConsumePanic := fun _ => cmd.Returned |} = cmd.Exit 1 /\
  forallb (fun e => negb (cmd.is_server_call e))
    (cmd.trace_of
       {| cmd.flag_f := None;
          cmd.ReadConfig := cmd.ReadConfig cmd.failing_world;
          cmd.NewFromConfig := cmd.NewFromConfig cmd.failing_world;
          cmd.raven_New := cmd.raven_New cmd.failing_world;
          cmd.Hostname := "host1";
          cmd.Start := cmd.Returned;
          cmd.HTTPServe := cmd.Blocked;
          cmd.ConsumePanic := fun _ => cmd.Returned |}) = true.
Proof. apply main_config_error. left. reflexivity. Defined.

Lemma main_no_client_without_dsn_witness :
  forallb (fun ev => negb (cmd.is_RavenNew ev)) (cmd.trace_of cmd.failing_world)
  = true /\
  List.filter cmd.is_Capture (cmd.trace_of cmd.failing_world)
  = [cmd.CallCapture None
       (cmd.failure_packet cmd.failing_world
          "listen udp: address already in use")] /\
  forallb (fun ev => negb (cmd.is_delivery ev)) (cmd.trace_of cmd.failing_world)
  = true /\
  cmd.outcome_of cmd.failing_world = cmd.Exit 1.
Proof.
  apply (main_no_client_without_dsn cmd.failing_world "veneur.yaml"
           {| cmd.SentryDsn := ""; cmd.HTTPAddress := ":8127" |});
    [reflexivity | discriminate | reflexivity | reflexivity | reflexivity].
Defined.

Lemma main_http_address_witness :
  cmd.main cmd.quiet_world
  = ([cmd.CallReadConfig "veneur.yaml";
      cmd.CallNewFromConfig {| cmd.SentryDsn := ""; cmd.HTTPAddress := "" |};
      cmd.CallStart],
     cmd.BlocksForever) /\
  exists rest,
    cmd.trace_of cmd.serving_world
    = [cmd.CallReadConfig "veneur.yaml";
       cmd.CallNewFromConfig
         {| cmd.SentryDsn := "https://key@sentry.example/1";
            cmd.HTTPAddress := ":8127" |};
       cmd.CallStart; cmd.CallHTTPServe] ++ rest.
Proof.
  split.
  - apply (main_http_address cmd.quiet_world "veneur.yaml"
             {| cmd.SentryDsn := ""; cmd.HTTPAddress := "" |});
      [reflexivity | discriminate | reflexivity | reflexivity | reflexivity
      | reflexivity].
  - apply (main_http_address cmd.serving_world "veneur.yaml"
             {| cmd.SentryDsn := "https://key@sentry.example/1";
                cmd.HTTPAddress := ":8127" |});
      [reflexivity | discriminate | reflexivity | reflexivity | reflexivity
      | discriminate].
Defined.


End witnesses.

(** ** The definitions at work *)
Section examples.
Import trace fixtures.

Example FormatInt_examples :
  strconv.FormatInt 0 = "0"%string /\
  strconv.FormatInt (-120) = "-120"%string /\
  strconv.FormatInt strconv.maxInt64 = "9223372036854775807"%string.
Proof. repeat split. Qed.

Example ParseInt_examples :
  strconv.ParseInt "+5" = Ok 5 /\
  strconv.ParseInt "007" = Ok 7 /\
  strconv.ParseInt "-9223372036854775808" = Ok strconv.minInt64 /\
  strconv.ParseInt "9223372036854775808" = Err strconv.ErrRange /\
  strconv.ParseInt "12a" = Err strconv.ErrSyntax /\
  strconv.ParseInt "-" = Err strconv.ErrSyntax.
Proof. repeat split. Qed.

Example ToLower_example : strs.ToLower "SpanID-7" = "spanid-7"%string.
Proof. reflexivity. Qed.

(** The three panics of [Inject]: a carrier that is no writer under the
    [Binary] format, a nil context pointer, a nil map as carrier. *)
Example Inject_panics :
  fst (Tracer.Inject ext0 alternating (OwnContext None) Binary
         (TextMapCarrier (Some ∅)) store0)
  = Return (TextMapCarrier (Some ∅),
            Some (ErrContractViolation TypeAssertionFailed)) /\
  fst (Tracer.Inject ext0 alternating (OwnContext None) TextMap
         (TextMapCarrier (Some ∅)) store0)
  = Return (TextMapCarrier (Some ∅),
            Some (ErrContractViolation NilDereference)) /\
  fst (Tracer.Inject ext0 alternating (OwnContext (Some 1%positive)) TextMap
         (TextMapCarrier None)
         (with_context store0 1%positive (parent_baggage trace0)))
  = Return (TextMapCarrier None,
            Some (ErrContractViolation NilMapAssignment)).
Proof. repeat split; vm_compute; reflexivity. Qed.

(** A sample without its trace part: the dereference panics and comes
    back as an error. *)
Example Extract_sample_without_trace :
  fst (Tracer.Extract
         {| ProtoMarshalTo := ProtoMarshalTo ext0;
            Unmarshal := fun _ => Return (Ok {| ssf.Trace := None |}) |}
         alternating Binary (StreamCarrier (Some (Ok [])) None) store0)
  = Return (NilContext, Some (ErrContractViolation NilDereference)).
Proof. reflexivity. Qed.

(** A text map that brings a spanid key of its own, in capitals: [Extract]
    succeeds after the injection. *)
Example Extract_with_foreign_spanid :
  fst (Tracer.Extract ext0 alternating TextMap
         (TextMapCarrier
            (Some (parent_baggage trace0 ∪ {[ "SpanID"%string := "5"%string ]})))
         store0)
  = Return (OwnContext (Some 1%positive), None).
Proof. vm_compute. reflexivity. Qed.

(** [SetOperationName], unlike [SetBaggageItem], is seen by a later
    [BaggageItem]. *)
Example SetOperationName_seen :
  fst (Span.BaggageItem span0 "resource"
         (snd (Span.SetOperationName span0 "refund" store0)))
  = Return "refund"%string /\
  fst (Span.BaggageItem span0 "resource"
         (snd (Span.SetBaggageItem span0 "resource" "refund" store0)))
  = Return "checkout"%string.
Proof. split; vm_compute; reflexivity. Qed.

Example worker_of_sample_a :
  routing.worker routing.serialize_key routing.fnv1a64 routing.fnv_offset64
    process_a 8 sample_a
  = routing.worker routing.serialize_key routing.fnv1a64 routing.fnv_offset64
    process_b 8 sample_b /\
  routing.MetricKey_of sample_a
  = {| routing.key_name := "api.latency"; routing.key_kind := routing.Timer;
       routing.key_tags := [("env", "prod"); ("region", "eu")]%string |}.
Proof. split; vm_compute; reflexivity. Qed.

End examples.

(** ** More about the loops over maps *)
Section loop_properties.
Import trace.



(** X2. [CloneTo] into a map [w] leaves in [w] every pair of [t], over
    whatever [w] had under the same key, and keeps the other pairs of [w];
    the order of the visit does not matter. *)
Theorem CloneTo_overwrites (ord : order) (t w : gmap string string) :
  range_order ord ->
  exists w',
    textMapReaderWriter.CloneTo ord t (Some w) = Return (Some w') /\
    forall k, w' !! k = match t !! k with
                        | Some v => Some v
                        | None => w !! k
                        end.
Proof.
  intros Hord. exists (t ∪ w). split; [now apply CloneTo_run |].
  intros k. rewrite lookup_union. now destruct (t !! k), (w !! k).
Qed.

(** X3. [CloneTo] into the nil map panics on the first pair, so exactly
    when [t] has a pair; with an empty [t] it returns and the writer stays
    nil. *)
Theorem CloneTo_nil_map (ord : order) (t : gmap string string) :
  range_order ord ->
  textMapReaderWriter.CloneTo ord t None
  = if decide (t = ∅) then Return None else Panic NilMapAssignment.
Proof.
  intros Hord. unfold textMapReaderWriter.CloneTo, textMapReaderWriter.ForeachKey.
  pose proof (Hord t) as Hperm.
  destruct (ord t) as [| [k v] rest] eqn:E.
  - symmetry in Hperm. apply Permutation_nil_r in Hperm.
    apply map_to_list_empty_iff in Hperm.
    now rewrite decide_True by exact Hperm.
  - rewrite decide_False; [reflexivity |].
    intros ->. rewrite map_to_list_empty in Hperm.
    now apply Permutation_nil_r in Hperm.
Qed.

(** X4. [Clone] returns a map with the same key-value pairs, whatever the
    order of the visit. *)
Theorem Clone_same_pairs (ord : order) (t : gmap string string) :
  range_order ord -> textMapReaderWriter.Clone ord t = Return (Some t).
Proof.
  intros Hord. unfold textMapReaderWriter.Clone.
  rewrite (CloneTo_run ord t ∅ Hord). now rewrite (right_id ∅ (∪)).
Qed.

Lemma visit_first_order k : range_order (visit_first k).
Proof.
  intros m. unfold visit_first. destruct (m !! k) as [v |] eqn:E;
    [| reflexivity].
  now apply map_to_list_delete.
Qed.

Lemma textMapReaderGet_visit_first (m : gmap string string) key k v :
  m !! k = Some v -> strs.ToLower k = strs.ToLower key ->
  textMapReaderGet (visit_first k) (Some m) key = Return v.
Proof.
  intros Hk Hlow. unfold textMapReaderGet, textMapReaderWriter.ForeachKey.
  change (default ∅ (Some m)) with m. unfold visit_first. rewrite Hk.
  simpl. now rewrite Hlow, String.eqb_refl.
Qed.

(** X5. When a text map has two keys that are equal up to case,
    [textMapReaderGet] returns the value of whichever the visit meets
    first: both values are possible results. *)
Theorem textMapReaderGet_order_dependent (m : gmap string string)
    (key k1 v1 k2 v2 : string) :
  m !! k1 = Some v1 -> m !! k2 = Some v2 ->
  strs.ToLower k1 = strs.ToLower key -> strs.ToLower k2 = strs.ToLower key ->
  exists ord1 ord2,
    range_order ord1 /\ range_order ord2 /\
    textMapReaderGet ord1 (Some m) key = Return v1 /\
    textMapReaderGet ord2 (Some m) key = Return v2.
Proof.
  intros H1 H2 L1 L2. exists (visit_first k1), (visit_first k2).
  split; [apply visit_first_order |]. split; [apply visit_first_order |].
  split; now apply textMapReaderGet_visit_first.
Qed.

End loop_properties.

(** ** More about the accessors of a span context *)
Section accessor_properties.
Import trace.



(** X7. [Resource] returns the value of the one baggage key that is
    resource up to case, and the empty string when there is none, whatever
    the order of the visit. *)
Theorem Resource_lookup ord l ctx σ :
  range_order ord -> contexts σ !! l = Some ctx ->
  (forall k0 v0,
      names (items ctx) "resource" k0 v0 ->
      spanContext.Resource ord (Some l) σ = (Return v0, σ)) /\
  (unnamed (items ctx) "resource" ->
   spanContext.Resource ord (Some l) σ = (Return EmptyString, σ)).
Proof.
  intros Hord Hctx. split.
  - intros k0 v0 Hnames.
    exact (Resource_hit ord l ctx σ k0 v0 Hord Hctx Hnames).
  - intros Hun. unfold spanContext.Resource.
    erewrite ForeachBaggageItem_run with (r := (EmptyString, None));
      [reflexivity | exact Hctx |].
    apply foreach_none. intros k v s' Hin.
    apply range_order_elem in Hin; [| exact Hord].
    destruct (String.eqb_spec (strs.ToLower k) "resource") as [Heq | _];
      [| reflexivity].
    now apply Hun in Hin.
Qed.

End accessor_properties.

(** ** More about [Tracer.Inject] and [Tracer.Extract] *)
Section tracer_properties.
Import trace.
Variable ext : Externals.



(** X9. A context as [Extract] builds it survives the trip through a text
    map: [Inject] into an empty map writes the four baggage pairs, and
    [Extract] from that map returns, without error, a new context with the
    same baggage, in every order of the visits. *)
Theorem Inject_Extract_text_round_trip sched1 sched2 format1 format2 t l σ :
  range_schedule sched1 -> range_schedule sched2 ->
  is_Binary format1 = false -> is_Binary format2 = false ->
  strconv.is_int64 (TraceId t) -> strconv.is_int64 (SpanId t) ->
  strconv.is_int64 (ParentId t) ->
  contexts σ !! l = Some {| baggageItems := Some (own_baggage t) |} ->
  Tracer.Inject ext sched1 (OwnContext (Some l)) format1
    (TextMapCarrier (Some ∅)) σ
  = (Return (TextMapCarrier (Some (own_baggage t)), None), σ) /\
  exists l',
    (l' ∉ dom (contexts σ)) /\
    Tracer.Extract ext sched2 format2 (TextMapCarrier (Some (own_baggage t))) σ
    = (Return (OwnContext (Some l'), None), with_context σ l' (own_baggage t)).
Proof.
  intros Hs1 Hs2 Hf1 Hf2 Ht Hsp Hp Hctx. split.
  - unfold Tracer.Inject, deferred_recover, Tracer.Inject_body.
    rewrite Hf1. cbn [as_TextMap].
    step (deref_run _ _ _ Hctx).
    erewrite M_bind_Return
      by (rewrite lift_run; unfold items; cbn [baggageItems default];
          rewrite (CloneTo_run _ _ _ (Hs1 0%nat)); reflexivity).
    cbv beta iota. now rewrite (right_id ∅ (∪)).
  - exists (fresh (dom (contexts σ))). split; [apply is_fresh |].
    unfold Tracer.Extract, deferred_recover, Tracer.Extract_body.
    rewrite Hf2. cbn [as_TextMap].
    rewrite (textMapReaderGet_hit _ _ _ _ _ (Hs2 0%nat) (own_baggage_traceid t)).
    rewrite (textMapReaderGet_hit _ _ _ _ _ (Hs2 1%nat) (own_baggage_spanid t)).
    rewrite (textMapReaderGet_hit _ _ _ _ _ (Hs2 2%nat) (own_baggage_parentid t)).
    rewrite (textMapReaderGet_hit _ _ _ _ _ (Hs2 3%nat) (own_baggage_resource t)).
    do 3 step lift_run.
    rewrite !ParseInt_FormatInt by assumption.
    step lift_run. step Trace_context_run.
    destruct t. reflexivity.
Qed.

Ltac names_by_cases keys :=
  split; [reflexivity | split; [reflexivity |]];
  let k := fresh "k" in let v := fresh "v" in
  let Hk := fresh "Hk" in let Hl := fresh "Hl" in
  intros k v Hk Hl; apply keys in Hk;
  repeat (destruct Hk as [-> | Hk]); subst;
  first [reflexivity | vm_compute in Hl; discriminate Hl].

Lemma parent_baggage_traceid t :
  names (parent_baggage t) "traceid" "traceid" (strconv.FormatInt (TraceId t)).
Proof. names_by_cases parent_baggage_keys. Qed.

Lemma parent_baggage_parentid t :
  names (parent_baggage t) "parentid" "parentid"
    (strconv.FormatInt (ParentId t)).
Proof. names_by_cases parent_baggage_keys. Qed.

Lemma parent_baggage_resource t :
  names (parent_baggage t) "resource" "resource" (Resource t).
Proof. names_by_cases parent_baggage_keys. Qed.

(** X10. [Inject] with the [Binary] format, given the context of a span
    and a writer, marshals a trace with the span's [TraceId], [ParentId]
    and [Resource] and with [SpanId] 0, the span id not being part of that
    context; it returns the error of the marshalling, and the error of
    contract violation when the marshalling panics. *)
Theorem Inject_binary_of_span_context sched s p t σ0 rd w :
  range_schedule sched ->
  Trace_ptr s = Some p -> traces σ0 !! p = Some t ->
  strconv.is_int64 (TraceId t) -> strconv.is_int64 (ParentId t) ->
  exists l σ,
    Span.Context s σ0 = (Return (OwnContext (Some l)), σ) /\
    Tracer.Inject ext sched (OwnContext (Some l)) Binary
      (StreamCarrier rd (Some w)) σ
    = match ProtoMarshalTo ext (parent_view t) w with
      | Return (w', err) => (Return (StreamCarrier rd (Some w'), err), σ)
      | Panic r =>
          (Return (StreamCarrier rd (Some w), Some (ErrContractViolation r)), σ)
      end.
Proof.
  intros Hs Hp Ht Hid Hpid. eexists _, _.
  split; [apply (Context_run s p t σ0 Hp Ht) |].
  set (σ := with_context σ0 _ _).
  pose proof (with_context_lookup σ0 (fresh (dom (contexts σ0)))
                (parent_baggage t)) as Hctx. fold σ in Hctx.
  unfold Tracer.Inject, deferred_recover, Tracer.Inject_body.
  cbn [is_Binary assert_Writer]. step lift_run.
  unfold spanContext.TraceId, spanContext.ParentId, spanContext.SpanId.
  step (parseBaggageInt64_hit _ _ _ _ _ _ _ _ (Hs 0%nat) Hctx
          (parent_baggage_traceid t) (ParseInt_FormatInt _ Hid)).
  step (parseBaggageInt64_hit _ _ _ _ _ _ _ _ (Hs 1%nat) Hctx
          (parent_baggage_parentid t) (ParseInt_FormatInt _ Hpid)).
  step (parseBaggageInt64_miss _ _ _ _ _ (Hs 2%nat) Hctx
          (parent_baggage_no_spanid t)).
  step (Resource_hit _ _ _ _ _ _ (Hs 3%nat) Hctx (parent_baggage_resource t)).
  unfold mbind at 1, M_bind. rewrite lift_run. fold (parent_view t).
  destruct (ProtoMarshalTo ext (parent_view t) w) as [[w' err] | r];
    reflexivity.
Qed.

End tracer_properties.

(** ** What [Inject] and [Extract] do to the store *)
Section store_properties.
Import trace.
Variable ext : Externals.

Lemma reads_ret {A} (a : A) : reads (mret a).
Proof. intros σ. reflexivity. Qed.

Lemma reads_lift {A} (e : exec A) : reads (lift e).
Proof. intros σ. reflexivity. Qed.

Lemma reads_bind {A B} (m : M A) (f : A -> M B) :
  reads m -> (forall a, reads (f a)) -> reads (m ≫= f).
Proof.
  intros Hm Hf σ. unfold mbind, M_bind. specialize (Hm σ).
  destruct (m σ) as [[a | r] σ']; cbn [snd] in Hm; subst σ';
    [apply Hf | reflexivity].
Qed.

Lemma reads_deref c : reads (deref c).
Proof.
  intros σ. unfold deref. destruct c as [l |]; [| reflexivity].
  now destruct (contexts σ !! l).
Qed.

Lemma reads_recover {A} (on_panic : panic_value -> A) (body : M A) :
  reads body -> reads (deferred_recover on_panic body).
Proof.
  intros Hb σ. unfold deferred_recover. specialize (Hb σ).
  now destruct (body σ) as [[a | r] σ'].
Qed.

Ltac reads_steps :=
  repeat first
    [ apply reads_ret | apply reads_lift | apply reads_deref
    | apply reads_bind; [| intros ?] ].

Lemma reads_ForeachBaggageItem {S} ord c
    (handler : string -> string -> S -> S * bool) (s : S) :
  reads (spanContext.ForeachBaggageItem ord c handler s).
Proof. unfold spanContext.ForeachBaggageItem. reads_steps. Qed.

Lemma reads_Inject_body sched sm format carrier :
  reads (Tracer.Inject_body ext sched sm format carrier).
Proof.
  unfold Tracer.Inject_body.
  destruct sm as [| sc |]; [apply reads_ret | | apply reads_ret].
  destruct (is_Binary format).
  - unfold spanContext.TraceId, spanContext.ParentId, spanContext.SpanId,
      spanContext.Resource, spanContext.parseBaggageInt64.
    repeat first
      [ apply reads_ret | apply reads_lift | apply reads_ForeachBaggageItem
      | apply reads_bind; [| intros ?] ].
  - destruct (as_TextMap carrier); reads_steps.
Qed.

(** X11. [Inject] and the accessors of a span context only read: for every
    argument, whether the call returns a value, an error or recovers from a
    panic, the contexts and the traces are afterwards what they were. *)
Theorem Inject_leaves_store sched sm format carrier ord c σ :
  snd (Tracer.Inject ext sched sm format carrier σ) = σ /\
  snd (spanContext.TraceId ord c σ) = σ /\
  snd (spanContext.ParentId ord c σ) = σ /\
  snd (spanContext.SpanId ord c σ) = σ /\
  snd (spanContext.Resource ord c σ) = σ.
Proof.
  split; [apply reads_recover, reads_Inject_body |].
  repeat split; apply reads_ForeachBaggageItem.
Qed.

(** X12. [Extract] either leaves the store as it was, which is so whenever
    it returns an error (also the error of a recovered panic), or it returns
    without error a pointer to one newly allocated context, all other
    contexts and the traces being as before. *)
Theorem Extract_allocates_at_most_once sched format carrier σ :
  (exists x e,
      Tracer.Extract ext sched format carrier σ = (Return (x, Some e), σ)) \/
  (exists t,
      Tracer.Extract ext sched format carrier σ
      = (Return (OwnContext (Some (fresh (dom (contexts σ)))), None),
         with_context σ (fresh (dom (contexts σ))) (own_baggage t))).
Proof.
  unfold Tracer.Extract, deferred_recover, Tracer.Extract_body.
  destruct (is_Binary format).
  - destruct (assert_Reader carrier) as [[packet | err] | r] eqn:Hrd;
      [| left; eexists _, _; erewrite M_bind_Return by apply lift_run;
         reflexivity
       | left; eexists _, _; erewrite M_bind_Panic by apply lift_run;
         reflexivity].
    erewrite M_bind_Return by apply lift_run. cbv beta iota.
    destruct (Unmarshal ext packet) as [[sample | err] | r] eqn:Hun;
      [| left; eexists _, _; erewrite M_bind_Return by apply lift_run;
         reflexivity
       | left; eexists _, _; erewrite M_bind_Panic by apply lift_run;
         reflexivity].
    erewrite M_bind_Return by apply lift_run. cbv beta iota.
    destruct (ssf.Trace sample) as [tr |];
      [| left; eexists _, _; erewrite M_bind_Panic by apply lift_run;
         reflexivity].
    right. eexists. step lift_run. step Trace_context_run. reflexivity.
  - destruct (as_TextMap carrier) as [tm |]; [| left; eexists _, _; reflexivity].
    destruct (textMapReaderGet_total (sched 0%nat) tm "traceid") as [v1 Hv1].
    destruct (textMapReaderGet_total (sched 1%nat) tm "spanid") as [v2 Hv2].
    destruct (textMapReaderGet_total (sched 2%nat) tm "parentid") as [v3 Hv3].
    destruct (textMapReaderGet_total (sched 3%nat) tm "resource") as [v4 Hv4].
    rewrite Hv1, Hv2, Hv3. do 3 step lift_run.
    destruct (strconv.ParseInt v1) as [i1 | e1];
      [| left; eexists _, _; reflexivity].
    destruct (strconv.ParseInt v2) as [i2 | e2];
      [| left; eexists _, _; reflexivity].
    destruct (strconv.ParseInt v3) as [i3 | e3];
      [| left; eexists _, _; reflexivity].
    right. eexists. rewrite Hv4. step lift_run. step Trace_context_run.
    reflexivity.
Qed.

End store_properties.

(** ** More about the methods of [Span] *)
Section span_properties.
Import trace.

Lemma store_trace_run s p t' σ :
  Trace_ptr s = Some p ->
  store_trace s t' σ
  = (Return tt, {| contexts := contexts σ; traces := <[p := t']> (traces σ) |}).
Proof. unfold store_trace. now intros ->. Qed.

(** X13. [SetOperationName] returns the span and replaces the [Resource]
    of its trace, and nothing else: the ids of the trace, the other traces
    and the contexts stay; a later [BaggageItem] of resource gives the new
    name. *)
Theorem SetOperationName_sets_resource s p t σ name :
  Trace_ptr s = Some p -> traces σ !! p = Some t ->
  exists σ1,
    Span.SetOperationName s name σ = (Return s, σ1) /\
    contexts σ1 = contexts σ /\
    traces σ1
    = <[p := {| TraceId := TraceId t; SpanId := SpanId t;
                ParentId := ParentId t; Resource := name |}]> (traces σ) /\
    fst (Span.BaggageItem s "resource" σ1) = Return name /\
    fst (Span.BaggageItem s "traceid" σ1)
    = Return (strconv.FormatInt (TraceId t)) /\
    fst (Span.BaggageItem s "parentid" σ1)
    = Return (strconv.FormatInt (ParentId t)).
Proof.
  intros Hp Ht. eexists. split.
  - unfold Span.SetOperationName.
    step (load_trace_run s p t σ Hp Ht).
    step (store_trace_run s p _ σ Hp). reflexivity.
  - split; [reflexivity | split; [reflexivity |]].
    set (t' := {| TraceId := TraceId t; SpanId := SpanId t;
                  ParentId := ParentId t; Resource := name |}).
    set (σ1 := {| contexts := contexts σ; traces := <[p := t']> (traces σ) |}).
    assert (Ht1 : traces σ1 !! p = Some t') by apply lookup_insert_eq.
    rewrite !(BaggageItem_run s p t' σ1 _ Hp Ht1). repeat split.
Qed.

(** X14. [BaggageItem] looks its key up as it is written: the keys traceid,
    parentid and resource give the decimal [TraceId], the decimal [ParentId]
    and the [Resource] of the span, and every other key, spanid and the
    three keys in another case of letters among them, gives the empty
    string. *)
Theorem BaggageItem_exact_key s p t σ k :
  Trace_ptr s = Some p -> traces σ !! p = Some t ->
  fst (Span.BaggageItem s k σ)
  = Return (if String.eqb k "resource" then Resource t
            else if String.eqb k "parentid" then strconv.FormatInt (ParentId t)
            else if String.eqb k "traceid" then strconv.FormatInt (TraceId t)
            else EmptyString).
Proof.
  intros Hp Ht. rewrite (BaggageItem_run s p t σ k Hp Ht). cbn [fst].
  f_equal. unfold parent_baggage.
  destruct (String.eqb_spec k "resource") as [-> | H1];
    [now rewrite lookup_insert_eq |].
  rewrite lookup_insert_ne by congruence.
  destruct (String.eqb_spec k "parentid") as [-> | H2];
    [now rewrite lookup_insert_eq |].
  rewrite lookup_insert_ne by congruence.
  destruct (String.eqb_spec k "traceid") as [-> | H3];
    [now rewrite lookup_insert_eq |].
  rewrite lookup_insert_ne by congruence. now rewrite lookup_empty.
Qed.

(** X15. Every call of [Context] returns a pointer to a context that did
    not exist before the call: the contexts that existed and the traces are
    untouched, and the next call returns another pointer to a context with
    the same baggage. *)
Theorem Context_is_fresh s p t σ :
  Trace_ptr s = Some p -> traces σ !! p = Some t ->
  exists l1 σ1 l2 σ2,
    Span.Context s σ = (Return (OwnContext (Some l1)), σ1) /\
    Span.Context s σ1 = (Return (OwnContext (Some l2)), σ2) /\
    (l1 ∉ dom (contexts σ)) /\ l1 <> l2 /\
    (contexts σ ⊆ contexts σ1) /\ (contexts σ1 ⊆ contexts σ2) /\
    traces σ2 = traces σ /\
    contexts σ2 !! l1 = contexts σ2 !! l2.
Proof.
  intros Hp Ht.
  set (l1 := fresh (dom (contexts σ))).
  set (σ1 := with_context σ l1 (parent_baggage t)).
  assert (Ht1 : traces σ1 !! p = Some t) by exact Ht.
  set (l2 := fresh (dom (contexts σ1))).
  assert (Hl1 : l1 ∉ dom (contexts σ)) by apply is_fresh.
  assert (Hl2 : l2 ∉ dom (contexts σ1)) by apply is_fresh.
  assert (Hne : l1 <> l2).
  { intros Heq. apply Hl2. rewrite <- Heq. unfold σ1, with_context.
    cbn [contexts]. rewrite dom_insert_L. set_solver. }
  exists l1, σ1, l2, (with_context σ1 l2 (parent_baggage t)).
  split; [apply (Context_run s p t σ Hp Ht) |].
  split; [apply (Context_run s p t σ1 Hp Ht1) |].
  split; [exact Hl1 |]. split; [exact Hne |].
  split; [apply insert_subseteq; now apply not_elem_of_dom |].
  split; [apply insert_subseteq; now apply not_elem_of_dom |].
  split; [reflexivity |].
  rewrite with_context_lookup. unfold with_context at 1. cbn [contexts].
  rewrite lookup_insert_ne by congruence. apply with_context_lookup.
Qed.

End span_properties.

(** ** More about [main] *)
Section main_properties.
Import cmd.

Lemma main_after_config w path conf :
  flag_f w = Some path -> path <> EmptyString ->
  ReadConfig w path = (conf, None) ->
  main_body w
  = ([CallReadConfig path]
       ++ fst (build_server w conf;; recovered ← serve w conf; deferred w recovered),
     snd (build_server w conf;; recovered ← serve w conf; deferred w recovered)).
Proof.
  intros Hf Hpath Hconf. unfold main_body.
  rewrite (config_path_given w path Hf Hpath), P_bind_Next. cbn [fst snd app].
  now rewrite (read_config_ok w path conf Hconf), P_bind_Next.
Qed.

(** X16. When the server cannot be built, whatever the DSN: [raven.New] is
    called exactly when the DSN is not empty; [Capture] is called exactly
    once, with the client [raven.New] returned (also when it returned an
    error beside it) or with the nil client, and with a packet that carries
    the error text and the host name; the server is never started and the
    process exits with code 1. *)
Theorem main_failure_reports_once w path conf e :
  flag_f w = Some path -> path <> EmptyString ->
  ReadConfig w path = (conf, None) ->
  NewFromConfig w conf = Some e ->
  List.filter is_RavenNew (trace_of w)
  = (if nonempty (SentryDsn conf) then [CallRavenNew (SentryDsn conf)] else []) /\
  List.filter is_Capture (trace_of w)
  = [CallCapture
       (if nonempty (SentryDsn conf) then fst (raven_New w (SentryDsn conf))
        else None)
       (failure_packet w e)] /\
  forallb (fun ev => negb (is_running ev)) (trace_of w) = true /\
  outcome_of w = Exit 1.
Proof.
  intros Hf Hpath Hconf Hnew. unfold trace_of, outcome_of, main.
  rewrite (main_after_config w path conf Hf Hpath Hconf).
  unfold build_server, report_failure, failure_packet. rewrite Hnew.
  destruct (nonempty (SentryDsn conf)); cbn;
    [destruct (raven_New w (SentryDsn conf)) as [client [err |]]; cbn |];
    destruct (nonempty (Hostname w)); cbn; repeat split.
Qed.

(** X17. Once the server is built, a panic of [server.Start] or of
    [server.HTTPServe] reaches the deferred function, which hands it to
    [veneur.ConsumePanic]; after a panic of [Start], [HTTPServe] is not
    called; when [HTTPServe] returns, [ConsumePanic] is called with nil. The
    process then ends as [ConsumePanic] decides: with code 0 when it
    returns. *)
Theorem main_deferred_ConsumePanic w path conf :
  flag_f w = Some path -> path <> EmptyString ->
  ReadConfig w path = (conf, None) ->
  NewFromConfig w conf = None ->
  (forall r, Start w = Panicked r ->
     main w = ([CallReadConfig path; CallNewFromConfig conf; CallStart;
                CallConsumePanic (Some r)],
               settle w (Some r))) /\
  (Start w = Returned -> HTTPAddress conf <> EmptyString ->
   main w
   = match HTTPServe w with
     | Returned =>
         ([CallReadConfig path; CallNewFromConfig conf; CallStart;
           CallHTTPServe; CallConsumePanic None],
          settle w None)
     | Panicked r =>
         ([CallReadConfig path; CallNewFromConfig conf; CallStart;
           CallHTTPServe; CallConsumePanic (Some r)],
          settle w (Some r))
     | Blocked =>
         ([CallReadConfig path; CallNewFromConfig conf; CallStart;
           CallHTTPServe],
          BlocksForever)
     end).
Proof.
  intros Hf Hpath Hconf Hnew. unfold main.
  rewrite (main_after_config w path conf Hf Hpath Hconf).
  unfold build_server, serve, guarded, deferred, settle. rewrite Hnew. split.
  - intros r Hstart. rewrite Hstart. cbn.
    destruct (ConsumePanic w (Some r)); reflexivity.
  - intros Hstart Haddr. rewrite Hstart, (nonempty_true _ Haddr).
    destruct (HTTPServe w) as [| r |]; cbn; [| | reflexivity].
    + destruct (ConsumePanic w None); reflexivity.
    + destruct (ConsumePanic w (Some r)); reflexivity.
Qed.



End main_properties.

(** ** The further properties at concrete inputs *)
Section more_witnesses.
Import trace fixtures.


Lemma CloneTo_overwrites_witness :
  exists w',
    textMapReaderWriter.CloneTo backwards (parent_baggage trace0)
      (Some twice_traceid)
    = Return (Some w') /\
    forall k, w' !! k = match parent_baggage trace0 !! k with
                        | Some v => Some v
                        | None => twice_traceid !! k
                        end.
Proof.
  apply (CloneTo_overwrites backwards (parent_baggage trace0) twice_traceid
           backwards_order).
Defined.

Lemma CloneTo_nil_map_witness :
  textMapReaderWriter.CloneTo backwards twice_traceid None
  = if decide (twice_traceid = ∅) then Return None else Panic NilMapAssignment.
Proof. apply (CloneTo_nil_map backwards twice_traceid backwards_order). Defined.

Lemma Clone_same_pairs_witness :
  textMapReaderWriter.Clone backwards twice_traceid = Return (Some twice_traceid).
Proof. apply (Clone_same_pairs backwards twice_traceid backwards_order). Defined.

Lemma textMapReaderGet_order_dependent_witness :
  exists ord1 ord2,
    range_order ord1 /\ range_order ord2 /\
    textMapReaderGet ord1 (Some twice_traceid) "traceid" = Return "1"%string /\
    textMapReaderGet ord2 (Some twice_traceid) "traceid" = Return "2"%string.
Proof.
  apply (textMapReaderGet_order_dependent twice_traceid "traceid"
           "traceid" "1" "TraceID" "2");
    reflexivity.
Defined.

Lemma broken_baggage_keys k v :
  broken_baggage !! k = Some v -> k = "TraceId"%string \/ k = "resource"%string.
Proof.
  unfold broken_baggage. intros H.
  apply lookup_insert_Some in H as [[<- _] | [_ H]]; [tauto |].
  apply lookup_singleton_Some in H as [<- _]. tauto.
Qed.


Lemma broken_baggage_resource :
  names broken_baggage "resource" "resource" "checkout".
Proof.
  split; [reflexivity | split; [reflexivity |]].
  intros k v Hk Hl. apply broken_baggage_keys in Hk as [-> | ->];
    [vm_compute in Hl; discriminate Hl | reflexivity].
Qed.


Lemma Resource_lookup_witness :
  spanContext.Resource backwards (Some 5%positive) store1
  = (Return "checkout"%string, store1).
Proof.
  apply (proj1 (Resource_lookup backwards 5%positive
                  {| baggageItems := Some broken_baggage |} store1
                  backwards_order eq_refl)
           "resource"%string "checkout"%string broken_baggage_resource).
Defined.


Lemma Inject_Extract_text_round_trip_witness :
  Tracer.Inject ext0 alternating (OwnContext (Some 3%positive)) TextMap
    (TextMapCarrier (Some ∅)) (with_context store0 3%positive (own_baggage trace0))
  = (Return (TextMapCarrier (Some (own_baggage trace0)), None),
     with_context store0 3%positive (own_baggage trace0)) /\
  exists l',
    (l' ∉ dom (contexts (with_context store0 3%positive (own_baggage trace0)))) /\
    Tracer.Extract ext0 alternating HTTPHeaders
      (TextMapCarrier (Some (own_baggage trace0)))
      (with_context store0 3%positive (own_baggage trace0))
    = (Return (OwnContext (Some l'), None),
       with_context (with_context store0 3%positive (own_baggage trace0)) l'
         (own_baggage trace0)).
Proof.
  apply (Inject_Extract_text_round_trip ext0 alternating alternating
           TextMap HTTPHeaders trace0 3%positive
           (with_context store0 3%positive (own_baggage trace0))
           alternating_schedule alternating_schedule eq_refl eq_refl
           (is_int64_small 7 ltac:(cbn; lia))
           (is_int64_small 9 ltac:(cbn; lia))
           (is_int64_small 8 ltac:(cbn; lia))
           (with_context_lookup store0 3%positive (own_baggage trace0))).
Defined.

Lemma Inject_binary_of_span_context_witness :
  exists l σ,
    Span.Context span0 store0 = (Return (OwnContext (Some l)), σ) /\
    Tracer.Inject ext0 alternating (OwnContext (Some l)) Binary
      (StreamCarrier None (Some [])) σ
    = (Return (StreamCarrier None (Some [Byte.x2a]), None), σ).
Proof.
  apply (Inject_binary_of_span_context ext0 alternating span0 1%positive
           trace0 store0 None [] alternating_schedule eq_refl eq_refl
           (is_int64_small 7 ltac:(cbn; lia))
           (is_int64_small 8 ltac:(cbn; lia))).
Defined.

Lemma SetOperationName_sets_resource_witness :
  exists σ1,
    Span.SetOperationName span0 "refund" store0 = (Return span0, σ1) /\
    contexts σ1 = contexts store0 /\
    traces σ1
    = <[1%positive := {| TraceId := 7; SpanId := 9; ParentId := 8;
                         Resource := "refund" |}]> (traces store0) /\
    fst (Span.BaggageItem span0 "resource" σ1) = Return "refund"%string /\
    fst (Span.BaggageItem span0 "traceid" σ1) = Return "7"%string /\
    fst (Span.BaggageItem span0 "parentid" σ1) = Return "8"%string.
Proof.
  apply (SetOperationName_sets_resource span0 1%positive trace0 store0 "refund"
           eq_refl eq_refl).
Defined.

Lemma BaggageItem_exact_key_witness :
  fst (Span.BaggageItem span0 "TraceID" store0) = Return EmptyString.
Proof.
  apply (BaggageItem_exact_key span0 1%positive trace0 store0 "TraceID"
           eq_refl eq_refl).
Defined.

Lemma Context_is_fresh_witness :
  exists l1 σ1 l2 σ2,
    Span.Context span0 store0 = (Return (OwnContext (Some l1)), σ1) /\
    Span.Context span0 σ1 = (Return (OwnContext (Some l2)), σ2) /\
    (l1 ∉ dom (contexts store0)) /\ l1 <> l2 /\
    (contexts store0 ⊆ contexts σ1) /\ (contexts σ1 ⊆ contexts σ2) /\
    traces σ2 = traces store0 /\
    contexts σ2 !! l1 = contexts σ2 !! l2.
Proof.
  apply (Context_is_fresh span0 1%positive trace0 store0 eq_refl eq_refl).
Defined.

Lemma main_failure_reports_once_witness :
  List.filter cmd.is_RavenNew (cmd.trace_of cmd.reporting_world)
  = [cmd.CallRavenNew "https://key@sentry.example/1"] /\
  List.filter cmd.is_Capture (cmd.trace_of cmd.reporting_world)
  = [cmd.CallCapture (Some (cmd.mkClient "https://key@sentry.example/1"))
       {| cmd.Message := "listen udp: address already in use";
          cmd.ServerName := "" |}] /\
  forallb (fun ev => negb (cmd.is_running ev)) (cmd.trace_of cmd.reporting_world)
  = true /\
  cmd.outcome_of cmd.reporting_world = cmd.Exit 1.
Proof.
  apply (main_failure_reports_once cmd.reporting_world "veneur.yaml"
           {| cmd.SentryDsn := "https://key@sentry.example/1";
              cmd.HTTPAddress := "" |}
           "listen udp: address already in use");
    [reflexivity | discriminate | reflexivity | reflexivity].
Defined.

Lemma main_deferred_ConsumePanic_witness :
  cmd.main cmd.serving_world
  = ([cmd.CallReadConfig "veneur.yaml";
      cmd.CallNewFromConfig
        {| cmd.SentryDsn := "https://key@sentry.example/1";
           cmd.HTTPAddress := ":8127" |};
      cmd.CallStart; cmd.CallHTTPServe;
      cmd.CallConsumePanic
        (Some "listen tcp :8127: bind: address already in use"%string)],
     cmd.Crash "listen tcp :8127: bind: address already in use").
Proof.
  apply (proj2 (main_deferred_ConsumePanic cmd.serving_world "veneur.yaml"
                  {| cmd.SentryDsn := "https://key@sentry.example/1";
                     cmd.HTTPAddress := ":8127" |}
                  eq_refl ltac:(discriminate) eq_refl eq_refl));
    [reflexivity | discriminate].
Defined.

End more_witnesses.

(** ** [Extract] and [Inject] on what the other side wrote *)
Section interchange_properties.
Import trace fixtures.
Variable ext : Externals.


(** X20. [Inject] with the [Binary] format marshals what the baggage of
    the context says: for a context with the baggage [Extract] builds for a
    trace, the trace handed to the marshalling is that trace, span id
    included, in every order of the visits. *)
Theorem Inject_binary_of_extracted sched t l σ rd w :
  range_schedule sched ->
  contexts σ !! l = Some {| baggageItems := Some (own_baggage t) |} ->
  strconv.is_int64 (TraceId t) -> strconv.is_int64 (SpanId t) ->
  strconv.is_int64 (ParentId t) ->
  Tracer.Inject ext sched (OwnContext (Some l)) Binary
    (StreamCarrier rd (Some w)) σ
  = match ProtoMarshalTo ext t w with
    | Return (w', err) => (Return (StreamCarrier rd (Some w'), err), σ)
    | Panic r =>
        (Return (StreamCarrier rd (Some w), Some (ErrContractViolation r)), σ)
    end.
Proof.
  intros Hs Hctx Hid Hsid Hpid.
  unfold Tracer.Inject, deferred_recover, Tracer.Inject_body.
  cbn [is_Binary assert_Writer]. step lift_run.
  unfold spanContext.TraceId, spanContext.ParentId, spanContext.SpanId.
  step (parseBaggageInt64_hit _ _ _ _ _ _ _ _ (Hs 0%nat) Hctx
          (own_baggage_traceid t) (ParseInt_FormatInt _ Hid)).
  step (parseBaggageInt64_hit _ _ _ _ _ _ _ _ (Hs 1%nat) Hctx
          (own_baggage_parentid t) (ParseInt_FormatInt _ Hpid)).
  step (parseBaggageInt64_hit _ _ _ _ _ _ _ _ (Hs 2%nat) Hctx
          (own_baggage_spanid t) (ParseInt_FormatInt _ Hsid)).
  step (Resource_hit _ _ _ _ _ _ (Hs 3%nat) Hctx (own_baggage_resource t)).
  unfold mbind at 1, M_bind. rewrite lift_run.
  replace {| TraceId := TraceId t; ParentId := ParentId t; SpanId := SpanId t;
             Resource := Resource t |} with t by now destruct t.
  destruct (ProtoMarshalTo ext t w) as [[w' err] | r]; reflexivity.
Qed.




End interchange_properties.

Section interchange_witnesses.
Import trace fixtures.


Lemma Inject_binary_of_extracted_witness :
  Tracer.Inject ext0 alternating (OwnContext (Some 3%positive)) Binary
    (StreamCarrier None (Some []))
    (with_context store0 3%positive (own_baggage trace0))
  = (Return (StreamCarrier None (Some [Byte.x2a]), None),
     with_context store0 3%positive (own_baggage trace0)).
Proof.
  apply (Inject_binary_of_extracted ext0 alternating trace0 3%positive
           (with_context store0 3%positive (own_baggage trace0)) None []
           alternating_schedule
           (with_context_lookup store0 3%positive (own_baggage trace0))
           (is_int64_small 7 ltac:(cbn; lia))
           (is_int64_small 9 ltac:(cbn; lia))
           (is_int64_small 8 ltac:(cbn; lia))).
Defined.

End interchange_witnesses.
